(** * Admission-inquiry assistant: the browser client

    A shallow embedding of the React client of the admission-inquiry
    assistant (App.jsx, ChatInterface, VoiceInterface, Analytics) and the
    properties of its request/response contract.

    Conventions of the embedding.
    - A component is a record of its [useState] cells plus one function per
      event handler.  A handler takes the props and state it closes over,
      the readings of the clock it makes, and the outcome of the [fetch] it
      awaits, and returns the next state, the effects it performed in order,
      and the exception (if any) that escaped it.
    - The clock is read once per synchronous block: [Date.now()] and
      [new Date()] next to each other give the same instant.
    - A JavaScript string is a [string] whose characters are code units
      below 256.
    - A JavaScript number is an IEEE-754 binary64 value ([spec_float] with
      precision 53 and maximal exponent 1024).
    - An object whose key order is observable (through [Object.entries] or
      [JSON.stringify]) is an association list in insertion order. *)

From Stdlib Require Import ZArith List String Ascii Bool Lia.
From Stdlib Require Import Sorted Permutation DecimalString DecimalPos DecimalZ.
From Stdlib Require Import Floats.SpecFloat.
Import ListNotations.

Set Warnings "-register-all".
Local Open Scope string_scope.
Local Open Scope Z_scope.
Local Open Scope list_scope.

Infix "+++" := String.append (at level 60, right associativity).

(* ------------------------------------------------------------------ *)
(** ** JavaScript values *)

Module JS.

(** Numbers: binary64. *)
Definition prec : Z := 53.
Definition emax : Z := 1024.
Definition number := spec_float.

Definition NaN : number := S754_nan.
Definition Infinity : number := S754_infinity false.

(** The number denoted by an integer literal or an integer JSON number
    (round to nearest, ties to even). *)
Definition of_Z (z : Z) : number := binary_normalize prec emax z 0 false.

Definition div (x y : number) : number := SFdiv prec emax x y.
Definition mul (x y : number) : number := SFmul prec emax x y.

Definition is_finite (x : number) : bool :=
  match x with
  | S754_zero _ | S754_finite _ _ _ => true
  | _ => false
  end.

(** [Math.round]: the integral number closest to [x], ties towards
    +Infinity; NaN, the infinities and the zeros are returned unchanged, and
    a negative [x] that rounds to zero gives -0. *)
Definition Math_round (x : number) : number :=
  match x with
  | S754_finite s m e =>
      if 0 <=? e then x
      else
        let d := Z.pow 2 (- e) in
        let n := (if s then - Z.pos m else Z.pos m) in
        let r := (2 * n + d) / (2 * d) in
        if r =? 0 then S754_zero s else of_Z r
  | _ => x
  end.

(** [Math.floor]: the largest integral number not above [x]. *)
Definition Math_floor (x : number) : number :=
  match x with
  | S754_finite s m e =>
      if 0 <=? e then x
      else
        let n := (if s then - Z.pos m else Z.pos m) in
        let r := n / Z.pow 2 (- e) in
        if r =? 0 then S754_zero s else of_Z r
  | _ => x
  end.

(** The integer a number holds, if it holds one. *)
Definition to_integer (x : number) : option Z :=
  match x with
  | S754_zero _ => Some 0
  | S754_finite s m e =>
      let n := (if s then - Z.pos m else Z.pos m) in
      if 0 <=? e then Some (n * Z.pow 2 e)
      else if n mod Z.pow 2 (- e) =? 0 then Some (n / Z.pow 2 (- e))
      else None
  | _ => None
  end.

(** Values, [undefined] included. *)
Inductive value :=
| VUndefined
| VNull
| VBool (b : bool)
| VNum (x : number)
| VStr (s : string)
| VArr (xs : list value)
| VObj (fields : list (string * value)).

Inductive exn :=
| TypeError
| SyntaxError
| NetworkError
| HttpError (status : Z) (statusText : string).

(** ToBoolean. *)
Definition truthy (v : value) : bool :=
  match v with
  | VUndefined | VNull => false
  | VBool b => b
  | VNum (S754_zero _) | VNum S754_nan => false
  | VNum _ => true
  | VStr EmptyString => false
  | VStr _ => true
  | VArr _ | VObj _ => true
  end.

Definition and_then (a b : value) : value := if truthy a then b else a.

(** The value under [k] in an object (its keys are distinct). *)
Fixpoint assoc {A} (k : string) (l : list (string * A)) : option A :=
  match l with
  | [] => None
  | (k', v) :: l' => if String.eqb k k' then Some v else assoc k l'
  end.

(** Property read [v.k] for a key [k] that no built-in prototype defines:
    a TypeError on [undefined] and [null], the own property of an object,
    [undefined] otherwise. *)
Definition get (v : value) (k : string) : exn + value :=
  match v with
  | VUndefined | VNull => inl TypeError
  | VObj fields =>
      match assoc k fields with
      | Some x => inr x
      | None => inr VUndefined
      end
  | _ => inr VUndefined
  end.

(** [String.prototype.trim] on code units below 256: TAB, LF, VT, FF, CR,
    SPACE and NBSP are stripped from both ends. *)
Definition is_white_space (c : ascii) : bool :=
  let n := N_of_ascii c in
  ((9 <=? n) && (n <=? 13) || (n =? 32) || (n =? 160))%N.

Fixpoint trim_start (s : string) : string :=
  match s with
  | EmptyString => EmptyString
  | String c s' => if is_white_space c then trim_start s' else s
  end.

Fixpoint string_rev (s : string) : string :=
  match s with
  | EmptyString => EmptyString
  | String c s' => string_rev s' +++ String c EmptyString
  end.

Definition trim_end (s : string) : string :=
  string_rev (trim_start (string_rev s)).

Definition trim (s : string) : string := trim_end (trim_start s).

(** [n.toString()] for an integer [n]. *)
Definition Z_toString (z : Z) : string := NilZero.string_of_int (Z.to_int z).

(** [x.toString()] for a number that holds an integer of magnitude below
    2^53: the decimal digits of the integer.  The text of the other
    numbers (fractions, exponents, digits of a rounded integer) is not
    modelled: [None]. *)
Definition integer_toString (x : number) : option string :=
  match to_integer x with
  | Some z => if Z.abs z <? Z.pow 2 53 then Some (Z_toString z) else None
  | None => None
  end.

(** [JSON.stringify] of an object literal: the members in source order,
    those whose value is [undefined] left out. *)
Definition JSON_stringify (fields : list (string * value)) : list (string * value) :=
  filter (fun kv => match snd kv with VUndefined => false | _ => true end) fields.

End JS.

(* ------------------------------------------------------------------ *)
(** ** The network and the other effects a handler performs *)

Module Net.
Import JS.

Record blob := { blob_data : list (list Byte.byte); blob_type : string }.

Inductive form_part :=
| PartText (s : string)
| PartFile (b : blob) (filename : string).

Inductive body :=
| NoBody
| JsonBody (members : list (string * value))
| FormBody (parts : list (string * form_part)).

Record request := {
  url : string;
  method : string;
  headers : list (string * string);
  req_body : body
}.

(** What [fetch] delivers, for a body that [response.json()] parses to a
    [J].  [json = None] is a body that [response.json()] rejects. *)
Record response_of (J : Type) := {
  ok : bool;
  status : Z;
  statusText : string;
  json : option J
}.
Arguments ok {J} _.
Arguments status {J} _.
Arguments statusText {J} _.
Arguments json {J} _.

Inductive outcome_of (J : Type) :=
| Rejected
| Resolved (r : response_of J).
Arguments Rejected {J}.
Arguments Resolved {J} r.

(** The replies whose body is read as a plain value. *)
Definition response := response_of value.
Definition fetch_outcome := outcome_of value.

Inductive effect :=
| Fetch (r : request)
| ToastSuccess (text : string)
| ToastError (text : string)
| ConsoleError (text : string)
| ClipboardWrite (v : value)
| AudioPause
| AudioPlay (audioUrl : value)
| ModalRemove.

Definition json_headers : list (string * string) :=
  [("Content-Type", "application/json")].

Definition post_json (u : string) (members : list (string * value)) : request :=
  {| url := u; method := "POST"; headers := json_headers;
     req_body := JsonBody (JSON_stringify members) |}.

(** The idiom shared by the handlers:
    [const r = await fetch(..); if (!r.ok) throw ..; const data = await r.json()]. *)
Definition await_json {J : Type} (o : outcome_of J) : exn + J :=
  match o with
  | Rejected => inl NetworkError
  | Resolved r =>
      if negb (ok r) then inl (HttpError (status r) (statusText r))
      else match json r with
           | None => inl SyntaxError
           | Some data => inr data
           end
  end.

Definition requests (effs : list effect) : list request :=
  flat_map (fun e => match e with Fetch r => [r] | _ => [] end) effs.

Definition body_keys (r : request) : list string :=
  match req_body r with
  | NoBody => []
  | JsonBody members => map fst members
  | FormBody parts => map fst parts
  end.


End Net.

(* ------------------------------------------------------------------ *)
(** ** ChatInterface *)

Module ChatInterface.
Import JS Net.

Record props := { sessionId : string; isConnected : bool }.

Inductive sender := user | bot.

(** A chat message.  [isError] is the optional flag of the source: absent
    (falsy) on every message but the error message. *)
Record message := {
  id : string;
  type : sender;
  content : value;
  timestamp : Z;
  intent : value;
  confidence : value;
  isError : bool
}.

Record state := {
  messages : list message;
  inputText : string;
  isLoading : bool;
  isTyping : bool
}.

(** What running a handler to completion leaves behind. *)
Record outcome := {
  final : state;
  effects : list effect;
  uncaught : option exn
}.

Definition initial : state :=
  {| messages := []; inputText := ""; isLoading := false; isTyping := false |}.

Definition welcomeMessage (now : Z) : message :=
  {| id := "welcome";
     type := bot;
     content := VStr "Hello! I'm your AI admission assistant. I can help you with information about admission requirements, deadlines, tuition, programs, and more. What would you like to know?";
     timestamp := now;
     intent := VStr "greeting";
     confidence := VNum (of_Z 1);
     isError := false |}.

(** The mount effect. *)
Definition mount (now : Z) : state :=
  {| messages := [welcomeMessage now];
     inputText := inputText initial;
     isLoading := isLoading initial;
     isTyping := isTyping initial |}.

Definition setMessages (f : list message -> list message) (st : state) : state :=
  {| messages := f (messages st); inputText := inputText st;
     isLoading := isLoading st; isTyping := isTyping st |}.
Definition setInputText (s : string) (st : state) : state :=
  {| messages := messages st; inputText := s;
     isLoading := isLoading st; isTyping := isTyping st |}.
Definition setIsLoading (b : bool) (st : state) : state :=
  {| messages := messages st; inputText := inputText st;
     isLoading := b; isTyping := isTyping st |}.
Definition setIsTyping (b : bool) (st : state) : state :=
  {| messages := messages st; inputText := inputText st;
     isLoading := isLoading st; isTyping := b |}.

Definition chat_request (p : props) (userMessage : message) : request :=
  post_json "/api/chat"
    [("message", content userMessage); ("session_id", VStr (sessionId p))].

(** [sendMessage], up to the [await fetch]: the guard, the user message,
    the four state updates and the request.  [None] is the early return. *)
Definition sendMessage_begin (p : props) (st : state) (now : Z)
  : option (state * request) :=
  if negb (truthy (VStr (trim (inputText st)))) || isLoading st || negb (isConnected p)
  then None
  else
    let userMessage :=
      {| id := Z_toString now; type := user;
         content := VStr (trim (inputText st)); timestamp := now;
         intent := VUndefined; confidence := VUndefined; isError := false |} in
    Some (setIsTyping true (setIsLoading true (setInputText ""
            (setMessages (fun prev => prev ++ [userMessage]) st))),
          chat_request p userMessage).

(** The callback handed to [setTimeout] after a reply was parsed.  Reading
    a property of [data] throws when [data] is [null]; the callback runs
    outside the [try], so that exception is not caught. *)
Definition sendMessage_timeout (data : value) (st : state) (now : Z) : exn + state :=
  match get data "response", get data "intent", get data "confidence" with
  | inr response, inr intent', inr confidence' =>
      let botMessage :=
        {| id := Z_toString (now + 1); type := bot; content := response;
           timestamp := now; intent := intent'; confidence := confidence';
           isError := false |} in
      inr (setIsLoading false (setIsTyping false
             (setMessages (fun prev => prev ++ [botMessage]) st)))
  | inl e, _, _ | _, inl e, _ | _, _, inl e => inl e
  end.

Definition errorMessage (now : Z) : message :=
  {| id := Z_toString (now + 1);
     type := bot;
     content := VStr "I'm sorry, I'm having trouble connecting right now. Please try again or contact our admissions office directly at (555) 123-4567.";
     timestamp := now;
     intent := VUndefined;
     confidence := VUndefined;
     isError := true |}.

(** The [catch] block. *)
Definition sendMessage_catch (st : state) (now : Z) : state * list effect :=
  (setIsLoading false (setIsTyping false
     (setMessages (fun prev => prev ++ [errorMessage now]) st)),
   [ConsoleError "Error sending message:";
    ToastError "Failed to send message. Please try again."]).

(** [sendMessage] from the [await] on: [st] is the state when the fetch
    settles with [o], [now] the clock when the catch block or the timer
    callback runs. *)
Definition sendMessage_settle (st : state) (o : fetch_outcome) (now : Z) : outcome :=
  match await_json o with
  | inl _ =>
      let '(st', effs) := sendMessage_catch st now in
      {| final := st'; effects := effs; uncaught := None |}
  | inr data =>
      match sendMessage_timeout data st now with
      | inr st' => {| final := st'; effects := []; uncaught := None |}
      | inl e => {| final := st; effects := []; uncaught := Some e |}
      end
  end.

(** One whole turn: the click at [t0], the fetch settling with [o], the
    last step at [t1], nothing else happening in between. *)
Definition sendMessage (p : props) (st : state) (t0 : Z) (o : fetch_outcome) (t1 : Z)
  : outcome :=
  match sendMessage_begin p st t0 with
  | None => {| final := st; effects := []; uncaught := None |}
  | Some (st1, req) =>
      let r := sendMessage_settle st1 o t1 in
      {| final := final r; effects := Fetch req :: effects r; uncaught := uncaught r |}
  end.

Definition copyMessage (c : value) (st : state) : outcome :=
  {| final := st;
     effects := [ClipboardWrite c; ToastSuccess "Message copied to clipboard"];
     uncaught := None |}.

(** [retryMessage].  The content of a user message is always a string. *)
Definition retryMessage (messageIndex : nat) (st : state) : state :=
  match messageIndex with
  | O => st
  | S i =>
      match nth_error (messages st) i with
      | Some userMessage =>
          match type userMessage, content userMessage with
          | user, VStr s =>
              setMessages (fun prev => firstn messageIndex prev) (setInputText s st)
          | _, _ => st
          end
      | None => st
      end
  end.

Definition sendFeedback (p : props) (messageId : string) (type' : string)
    (o : fetch_outcome) (st : state) : outcome :=
  let req := post_json "/api/feedback"
               [("session_id", VStr (sessionId p));
                ("message_id", VStr messageId);
                ("feedback_type", VStr type')] in
  {| final := st;
     effects :=
       Fetch req ::
       match o with
       | Resolved _ =>
           [ToastSuccess ("Thank you for your "
                          +++ (if String.eqb type' "positive" then "positive" else "negative")
                          +++ " feedback!")]
       | Rejected => [ConsoleError "Error sending feedback:"]
       end;
     uncaught := None |}.

(** [clearChat] keeps the first message (the welcome message, present from
    the mount on). *)
Definition clearChat (st : state) : outcome :=
  {| final := setMessages (fun _ => firstn 1 (messages st)) st;
     effects := [ToastSuccess "Chat cleared"];
     uncaught := None |}.

(** [window.sendFollowUp], installed by [requestFollowUp]: [sid] is the
    session id the closure captured, [email] and [name] the values of the
    two inputs of the modal. *)
Definition sendFollowUp (sid : string) (email name : string) (o : fetch_outcome)
  : list effect :=
  if negb (truthy (VStr email)) || negb (truthy (VStr name))
  then [ToastError "Please fill in all fields"]
  else
    Fetch (post_json "/api/followup"
             [("email", VStr email); ("name", VStr name);
              ("session_id", VStr sid); ("inquiry_type", VStr "general")])
    :: match o with
       | Resolved _ => [ToastSuccess "Follow-up email will be sent shortly!"; ModalRemove]
       | Rejected => [ConsoleError "Error requesting follow-up:";
                      ToastError "Failed to send follow-up request"]
       end.

(** *** What the component renders *)

Inductive action :=
| Copy (c : value)
| Feedback (messageId : string) (type' : string)
| Retry (index : nat).

(** The buttons under one message. *)
Definition message_actions (index : nat) (m : message) : list action :=
  (match type m with
   | bot => if negb (isError m)
            then [Copy (content m); Feedback (id m) "positive"; Feedback (id m) "negative"]
            else []
   | user => []
   end)
  ++ (if isError m then [Retry index] else []).

Fixpoint actions_from (index : nat) (ms : list message) : list action :=
  match ms with
  | [] => []
  | m :: ms' => message_actions index m ++ actions_from (S index) ms'
  end.

Definition actions (st : state) : list action := actions_from 0 (messages st).

(** The [disabled] attribute of the send button and of the text area. *)
Definition send_disabled (p : props) (st : state) : bool :=
  negb (truthy (VStr (trim (inputText st)))) || isLoading st || negb (isConnected p).
Definition input_disabled (p : props) (st : state) : bool :=
  negb (isConnected p) || isLoading st.

End ChatInterface.

(* ------------------------------------------------------------------ *)
(** ** VoiceInterface *)

Module VoiceInterface.
Import JS Net.

Record props := { sessionId : string; isConnected : bool }.

Record conversation := {
  id : string;
  timestamp : Z;
  transcript : value;
  response : value;
  audioUrl : value;
  intent : value;
  confidence : value;
  recordingDuration : Z
}.

(** The cells of the component.  [currentAudio] holds the url the playing
    [Audio] element was made for.  Recording itself (the microphone, the
    [MediaRecorder], the timer and the permission query) is left out: what
    it produces is the content of [audioChunksRef] that [processRecording]
    is given. *)
Record state := {
  isRecording : bool;
  isProcessing : bool;
  isPlaying : bool;
  isMuted : bool;
  recordingTime : Z;
  conversations : list conversation;
  currentAudio : option value
}.

Record outcome := {
  final : state;
  effects : list effect;
  uncaught : option exn
}.

Definition initial : state :=
  {| isRecording := false; isProcessing := false; isPlaying := false;
     isMuted := false; recordingTime := 0; conversations := [];
     currentAudio := None |}.

Definition setIsProcessing (b : bool) (st : state) : state :=
  {| isRecording := isRecording st; isProcessing := b; isPlaying := isPlaying st;
     isMuted := isMuted st; recordingTime := recordingTime st;
     conversations := conversations st; currentAudio := currentAudio st |}.
Definition setIsPlaying (b : bool) (st : state) : state :=
  {| isRecording := isRecording st; isProcessing := isProcessing st; isPlaying := b;
     isMuted := isMuted st; recordingTime := recordingTime st;
     conversations := conversations st; currentAudio := currentAudio st |}.
Definition setIsMuted (b : bool) (st : state) : state :=
  {| isRecording := isRecording st; isProcessing := isProcessing st;
     isPlaying := isPlaying st; isMuted := b; recordingTime := recordingTime st;
     conversations := conversations st; currentAudio := currentAudio st |}.
Definition setRecordingTime (t : Z) (st : state) : state :=
  {| isRecording := isRecording st; isProcessing := isProcessing st;
     isPlaying := isPlaying st; isMuted := isMuted st; recordingTime := t;
     conversations := conversations st; currentAudio := currentAudio st |}.
Definition setConversations (f : list conversation -> list conversation) (st : state)
  : state :=
  {| isRecording := isRecording st; isProcessing := isProcessing st;
     isPlaying := isPlaying st; isMuted := isMuted st;
     recordingTime := recordingTime st;
     conversations := f (conversations st); currentAudio := currentAudio st |}.
Definition setCurrentAudio (a : option value) (st : state) : state :=
  {| isRecording := isRecording st; isProcessing := isProcessing st;
     isPlaying := isPlaying st; isMuted := isMuted st;
     recordingTime := recordingTime st;
     conversations := conversations st; currentAudio := a |}.

(** [playAudio].  [closure] is the render the function belongs to (it reads
    [currentAudio] from there), [st] the state it updates, [played] whether
    the promise of [audio.play()] is fulfilled.  The url handed to [Audio]
    is ["/api"] followed by [audioUrl].  The second list holds the effects
    of the [catch] block, which runs after the caller has gone on. *)
Definition playAudio (closure : state) (audioUrl : value) (played : bool) (st : state)
  : state * list effect * list effect :=
  let '(st1, effs1) :=
    match currentAudio closure with
    | Some _ => (setCurrentAudio None st, [AudioPause])
    | None => (st, [])
    end in
  let st2 := setCurrentAudio (Some audioUrl) st1 in
  if played then (st2, effs1 ++ [AudioPlay audioUrl], [])
  else (setIsPlaying false st2,
        effs1 ++ [AudioPlay audioUrl],
        [ConsoleError "Error playing audio:"; ToastError "Failed to play audio"]).

Definition voice_request (p : props) (audioChunks : list (list Byte.byte)) : request :=
  {| url := "/api/voice";
     method := "POST";
     headers := [];
     req_body :=
       FormBody
         [("audio", PartFile {| blob_data := audioChunks; blob_type := "audio/webm" |}
                             "recording.webm");
          ("session_id", PartText (sessionId p))] |}.

(** The body of the [try] block once [data] is there. *)
Definition processRecording_try (closure : state) (data : value) (now : Z) (played : bool)
    (st : state) : exn + state * list effect :=
  match get data "transcript", get data "response", get data "audio_url",
        get data "intent", get data "confidence" with
  | inr transcript', inr response', inr audio_url, inr intent', inr confidence' =>
      let conversation' :=
        {| id := Z_toString now; timestamp := now;
           transcript := transcript'; response := response';
           audioUrl := audio_url; intent := intent'; confidence := confidence';
           recordingDuration := recordingTime closure |} in
      let st1 := setRecordingTime 0
                   (setConversations (fun prev => prev ++ [conversation']) st) in
      let '(st2, effs, late) :=
        if negb (isMuted closure) && truthy audio_url
        then playAudio closure audio_url played st1
        else (st1, [], []) in
      inr (st2, effs ++ [ToastSuccess "Voice message processed successfully"] ++ late)
  | inl e, _, _, _, _ | _, inl e, _, _, _ | _, _, inl e, _, _
  | _, _, _, inl e, _ | _, _, _, _, inl e => inl e
  end.

(** [processRecording], the [onstop] handler of the recorder.
    [closure] is the render the handler was taken from, [audioChunks] the
    content of [audioChunksRef] when it runs, [st] the state then. *)
Definition processRecording (p : props) (closure : state)
    (audioChunks : list (list Byte.byte)) (o : fetch_outcome) (now : Z)
    (played : bool) (st : state) : outcome :=
  match audioChunks with
  | [] => {| final := st; effects := [ToastError "No audio recorded"]; uncaught := None |}
  | _ :: _ =>
      let st1 := setIsProcessing true st in
      let req := voice_request p audioChunks in
      let failed :=
        {| final := setIsProcessing false st1;
           effects := [Fetch req; ConsoleError "Error processing recording:";
                       ToastError "Failed to process voice message"];
           uncaught := None |} in
      match await_json o with
      | inl _ => failed
      | inr data =>
          match processRecording_try closure data now played st1 with
          | inl _ => failed
          | inr (st2, effs) =>
              {| final := setIsProcessing false st2;
                 effects := Fetch req :: effs;
                 uncaught := None |}
          end
      end
  end.

Definition pauseAudio (closure : state) (st : state) : state * list effect :=
  match currentAudio closure with
  | Some _ => (setIsPlaying false st, [AudioPause])
  | None => (st, [])
  end.

Definition clearConversations (closure : state) (st : state) : state * list effect :=
  let st1 := setConversations (fun _ => []) st in
  match currentAudio closure with
  | Some _ => (setCurrentAudio None st1,
               [AudioPause; ToastSuccess "Voice conversations cleared"])
  | None => (st1, [ToastSuccess "Voice conversations cleared"])
  end.

(** *** What the component renders for one conversation *)




Definition record_disabled (p : props) (st : state) : bool :=
  negb (isConnected p) || isProcessing st.

(** [s.padStart(targetLength, c)] for a one-character filler. *)
Fixpoint padding (n : nat) (c : ascii) : string :=
  match n with
  | O => EmptyString
  | S n' => String c (padding n' c)
  end.

Definition padStart (targetLength : nat) (c : ascii) (s : string) : string :=
  padding (targetLength - String.length s) c +++ s.

(** [formatTime] of the number that holds the integer [seconds] (the
    counter [recordingTime]).  The minutes are [Math.floor(seconds / 60)]
    on numbers; [seconds % 60] is the remainder with the sign of
    [seconds], which is exact.  Beyond 2^53 a number does not hold every
    integer and the text of the minutes is not modelled: [None]. *)
Definition formatTime (seconds : Z) : option string :=
  let mins := Math_floor (div (of_Z seconds) (of_Z 60)) in
  let secs := Z.rem seconds 60 in
  if Z.abs seconds <? 2 ^ 53 then
    match integer_toString mins with
    | Some text => Some (text +++ ":" +++ padStart 2 "0" (Z_toString secs))
    | None => None
    end
  else None.

End VoiceInterface.

(* ------------------------------------------------------------------ *)
(** ** Analytics *)

Module Analytics.
Import JS Net.

Record props := { sessionId : string; isConnected : bool }.

(** A count on which the component does arithmetic, which tells a missing
    member ([undefined]) from [null]. *)
Inductive count_member :=
| Absent
| Null
| Count (n : Z).

(** The rollup object the dashboard reads ([data.analytics] of the reply),
    typed by its contract: counts are integers, the means are numbers.
    Every member is optional.  The component divides by
    [total_interactions], so that member says whether it is absent or
    [null]; the others are only tested and read, which treats the two
    alike ([None]).  A distribution is the list [Object.entries] gives for
    it.  [others] are the members of the object that the component never
    names. *)
Record rollup := {
  total_interactions : count_member;
  unique_sessions : option Z;
  intent_distribution : option (list (string * Z));
  channel_distribution : option (list (string * Z));
  daily_interactions : option (list (string * Z));
  average_confidence : option (list (string * number));
  average_processing_time : option number;
  entity_distribution : option (list (string * Z));
  others : list (string * value)
}.

(** The cells of the component but [lastUpdated], which only feeds the
    header line. *)
Record state := {
  analyticsData : option rollup;
  timeRange : Z;
  isLoading : bool
}.

Definition initial : state :=
  {| analyticsData := None; timeRange := 7; isLoading := true |}.

(** The four [<option>]s of the time range selector and their values. *)
Inductive range_option := Last7 | Last14 | Last30 | Last90.

Definition option_value (o : range_option) : Z :=
  match o with Last7 => 7 | Last14 => 14 | Last30 => 30 | Last90 => 90 end.

(** [onChange] of the selector: [setTimeRange(Number(e.target.value))]. *)
Definition selectTimeRange (o : range_option) (st : state) : state :=
  {| analyticsData := analyticsData st; timeRange := option_value o;
     isLoading := isLoading st |}.

Definition analytics_request (st : state) : request :=
  {| url := "/api/analytics?days=" +++ Z_toString (timeRange st);
     method := "GET"; headers := []; req_body := NoBody |}.

(** The parsed body of the reply to the query, as far as the component
    looks at it: [null], on which reading [data.analytics] throws, or a
    value whose [analytics] member is the rollup ([None]: no such member). *)
Inductive payload :=
| NullPayload
| Payload (analytics : option rollup).

(** [fetchAnalytics]. *)
Definition fetchAnalytics (o : outcome_of payload) (st : state) : state * list effect :=
  let failed :=
    ({| analyticsData := analyticsData st; timeRange := timeRange st;
        isLoading := false |},
     [Fetch (analytics_request st);
      ConsoleError "Error fetching analytics:";
      ToastError "Failed to load analytics data"]) in
  match await_json o with
  | inl _ => failed
  | inr NullPayload => failed
  | inr (Payload a) =>
      ({| analyticsData := a; timeRange := timeRange st; isLoading := false |},
       [Fetch (analytics_request st)])
  end.

(** *** Strings *)

Definition is_word_char (c : ascii) : bool :=
  let n := N_of_ascii c in
  ((48 <=? n) && (n <=? 57) || (65 <=? n) && (n <=? 90)
   || (97 <=? n) && (n <=? 122) || (n =? 95))%N.

(** [toUpperCase] of one character below 128: the letters a to z change,
    the others do not.  ([title] applies it to word characters only, which
    are below 128.) *)
Definition upper (c : ascii) : ascii :=
  let n := N_of_ascii c in
  if ((97 <=? n) && (n <=? 122))%N then ascii_of_N (n - 32) else c.

(** [s.replace('_', ' ')]: the first underscore only. *)
Fixpoint replace_underscore (s : string) : string :=
  match s with
  | EmptyString => EmptyString
  | String c s' =>
      if Ascii.eqb c "_" then String " " s' else String c (replace_underscore s')
  end.

(** [s.replace(/\b\w/g, l => l.toUpperCase())]: a word character is put
    in upper case when no word character precedes it.  [inside] tells
    whether the previous character was a word character. *)
Fixpoint capitalize_words (inside : bool) (s : string) : string :=
  match s with
  | EmptyString => EmptyString
  | String c s' =>
      String (if is_word_char c && negb inside then upper c else c)
             (capitalize_words (is_word_char c) s')
  end.

Definition title (s : string) : string :=
  capitalize_words false (replace_underscore s).




(** *** Sorting *)

(** [Array.prototype.sort] with a comparator, as a stable insertion sort.
    [after a b] is [comparator(a, b) > 0]: [a] is to come after [b]. *)
Section Sort.
Context {A : Type} (after : A -> A -> bool).

Fixpoint insert (x : A) (l : list A) : list A :=
  match l with
  | [] => [x]
  | y :: l' => if after x y then y :: insert x l' else x :: l
  end.

Fixpoint sort (l : list A) : list A :=
  match l with
  | [] => []
  | x :: l' => insert x (sort l')
  end.

End Sort.


(** *** The chart data *)

(** ToNumber of the member: [undefined] is NaN, [null] is 0. *)
Definition count_number (c : count_member) : number :=
  match c with
  | Absent => NaN
  | Null => of_Z 0
  | Count z => of_Z z
  end.

Record intent_row := { name : string; value : Z; percentage : number }.

Definition processIntentData (analyticsData : option rollup) : list intent_row :=
  match analyticsData with
  | None => []
  | Some a =>
      match intent_distribution a with
      | None => []
      | Some dist =>
          sort (fun a' b' => value b' - value a' >? 0)
            (map (fun '(intent, count) =>
                    {| name := title intent;
                       value := count;
                       percentage :=
                         Math_round
                           (mul (div (of_Z count) (count_number (total_interactions a)))
                                (of_Z 100)) |})
                 dist)
      end
  end.




Record daily_row := { date : string; interactions : Z }.

(** The two functions of date-fns the component imports, and its dates. *)
Section Dates.
Variable Date : Type.
Variable subDays : Date -> Z -> Date.
Variable format : Date -> string -> string.

(** The body of the loop of [processDailyData] for one [i].  [now] is the
    value of [new Date()]. *)
Definition daily_entry (now : Date) (daily : list (string * Z)) (i : Z) : daily_row :=
  let date' := format (subDays now i) "yyyy-MM-dd" in
  let count :=
    match assoc date' daily with
    | Some c => if c =? 0 then 0 else c
    | None => 0
    end in
  {| date := format (subDays now i) "MMM dd"; interactions := count |}.

(** The loop [for (let i = k - 1; i >= 0; i--) days.push(..)], by
    recursion on the number [k] of iterations left. *)
Fixpoint daily_loop (now : Date) (daily : list (string * Z)) (k : nat) : list daily_row :=
  match k with
  | O => []
  | S i => daily_entry now daily (Z.of_nat i) :: daily_loop now daily i
  end.

Definition processDailyData (now : Date) (st : state) : list daily_row :=
  match analyticsData st with
  | None => []
  | Some a =>
      match daily_interactions a with
      | None => []
      | Some daily => daily_loop now daily (Z.to_nat (timeRange st))
      end
  end.

End Dates.

(** *** The cards *)



(** "Daily Average". *)
Definition daily_average (st : state) (a : rollup) : number :=
  Math_round (div (count_number (total_interactions a)) (of_Z (timeRange st))).

(** *** What is on the screen *)

(** The three returns of the component: the spinner while [isLoading], the
    "Failed to load analytics data" panel with its Retry button when there
    is no data, the dashboard otherwise. *)
Inductive screen :=
| Loading
| Failed
| Dashboard (a : rollup).

Definition render (st : state) : screen :=
  if isLoading st then Loading
  else match analyticsData st with
       | None => Failed
       | Some a => Dashboard a
       end.


End Analytics.

(** A proleptic Gregorian calendar on day numbers (days since 1970-01-01),
    with the two patterns the dashboard uses: an instance of the date
    functions to evaluate [processDailyData] with. *)
Module Calendar.
Import JS.

Definition civil (day : Z) : Z * Z * Z :=
  let z := day + 719468 in
  let era := z / 146097 in
  let doe := z - era * 146097 in
  let yoe := (doe - doe / 1460 + doe / 36524 - doe / 146096) / 365 in
  let doy := doe - (365 * yoe + yoe / 4 - yoe / 100) in
  let mp := (5 * doy + 2) / 153 in
  let d := doy - (153 * mp + 2) / 5 + 1 in
  let m := if mp <? 10 then mp + 3 else mp - 9 in
  let y := yoe + era * 400 + (if m <=? 2 then 1 else 0) in
  (y, m, d).

Definition two_digits (n : Z) : string :=
  if n <? 10 then "0" +++ Z_toString n else Z_toString n.

Definition month_name (m : Z) : string :=
  nth (Z.to_nat (m - 1))
      ["Jan"; "Feb"; "Mar"; "Apr"; "May"; "Jun";
       "Jul"; "Aug"; "Sep"; "Oct"; "Nov"; "Dec"] "".

Definition subDays (day : Z) (amount : Z) : Z := day - amount.

Definition format (day : Z) (pattern : string) : string :=
  let '(y, m, d) := civil day in
  if String.eqb pattern "yyyy-MM-dd"
  then Z_toString y +++ "-" +++ two_digits m +++ "-" +++ two_digits d
  else if String.eqb pattern "MMM dd"
  then month_name m +++ " " +++ two_digits d
  else "".

End Calendar.

(* ------------------------------------------------------------------ *)
(** ** App *)

Module App.
Import JS Net.

Inductive tab := chat | voice | analytics.

(** The cells of [App].  [sessionId] has no setter: the component keeps
    only the first element of the pair [useState] returns. *)
Record state := {
  activeTab : tab;
  sessionId : string;
  isConnected : bool;
  systemStatus : string
}.

(** The first render.  [now] is [Date.now()] and [random36] is
    [Math.random().toString(36)] when the lazy initialiser of [sessionId]
    runs. *)
Definition init (now : Z) (random36 : string) : state :=
  {| activeTab := chat;
     sessionId := "session_" +++ Z_toString now +++ "_" +++ substring 2 9 random36;
     isConnected := false;
     systemStatus := "checking" |}.

Definition setActiveTab (t : tab) (st : state) : state :=
  {| activeTab := t; sessionId := sessionId st;
     isConnected := isConnected st; systemStatus := systemStatus st |}.

Definition setConnection (b : bool) (status' : string) (st : state) : state :=
  {| activeTab := activeTab st; sessionId := sessionId st;
     isConnected := b; systemStatus := status' |}.

Definition health_request : request :=
  {| url := "/api/health"; method := "GET"; headers := []; req_body := NoBody |}.

Definition checkSystemHealth (o : fetch_outcome) (st : state) : state * list effect :=
  match o with
  | Resolved r =>
      if ok r then (setConnection true "healthy" st, [Fetch health_request])
      else (setConnection false "error" st, [Fetch health_request])
  | Rejected =>
      (setConnection false "error" st,
       [Fetch health_request; ConsoleError "Health check failed:"])
  end.

(** The props [App] hands to the active component. *)
Definition chat_props (st : state) : ChatInterface.props :=
  {| ChatInterface.sessionId := sessionId st;
     ChatInterface.isConnected := isConnected st |}.
Definition voice_props (st : state) : VoiceInterface.props :=
  {| VoiceInterface.sessionId := sessionId st;
     VoiceInterface.isConnected := isConnected st |}.

(** The text next to the status dot in the header. *)
Definition status_text (st : state) : string :=
  if String.eqb (systemStatus st) "healthy" then "Online"
  else if String.eqb (systemStatus st) "checking" then "Connecting..."
  else "Offline".

End App.

(* ------------------------------------------------------------------ *)
(** ** The running application

    [App] with the component of the active tab mounted, driven by the
    events of the page.  An event carries what the handler it starts gets
    from outside: clock readings, fetch outcomes, and for the voice handler
    the render its closure was taken from. *)

Module Client.
Import JS Net.

Record world := {
  app : App.state;
  chat : ChatInterface.state;
  voice : VoiceInterface.state;
  analytics : Analytics.state;
  (** the session id captured by [window.sendFollowUp], once installed *)
  followUp : option string
}.

Inductive event :=
| HealthCheck (o : fetch_outcome)
| SelectTab (t : App.tab) (now : Z) (o : outcome_of Analytics.payload)
| SampleQuestion (question : string) (now : Z)
| ChatInput (text : string)
| ChatSend (t0 : Z) (o : fetch_outcome) (t1 : Z)
| ChatClick (button : nat) (o : fetch_outcome)
| ChatClear
| RequestFollowUp
| FollowUpSend (email name : string) (o : fetch_outcome)
| VoiceStop (closure : VoiceInterface.state) (audioChunks : list (list Byte.byte))
            (o : fetch_outcome) (now : Z) (played : bool)
| VoiceMute
| VoiceClear
| RangeSelect (r : Analytics.range_option) (o : outcome_of Analytics.payload)
| Refresh (o : outcome_of Analytics.payload).

Definition start (now : Z) (random36 : string) : world :=
  {| app := App.init now random36;
     chat := ChatInterface.mount now;
     voice := VoiceInterface.initial;
     analytics := Analytics.initial;
     followUp := None |}.

Definition with_app (a : App.state) (w : world) : world :=
  {| app := a; chat := chat w; voice := voice w; analytics := analytics w;
     followUp := followUp w |}.
Definition with_chat (c : ChatInterface.state) (w : world) : world :=
  {| app := app w; chat := c; voice := voice w; analytics := analytics w;
     followUp := followUp w |}.
Definition with_voice (v : VoiceInterface.state) (w : world) : world :=
  {| app := app w; chat := chat w; voice := v; analytics := analytics w;
     followUp := followUp w |}.
Definition with_analytics (a : Analytics.state) (w : world) : world :=
  {| app := app w; chat := chat w; voice := voice w; analytics := a;
     followUp := followUp w |}.

Definition tab_eqb (a b : App.tab) : bool :=
  match a, b with
  | App.chat, App.chat | App.voice, App.voice | App.analytics, App.analytics => true
  | _, _ => false
  end.

(** Switching to another tab mounts its component afresh; [Analytics]
    fetches on mount. *)
Definition select_tab (t : App.tab) (now : Z) (o : outcome_of Analytics.payload)
    (w : world) : world * list effect :=
  if tab_eqb t (App.activeTab (app w)) then (w, [])
  else
    let w1 := with_app (App.setActiveTab t (app w)) w in
    match t with
    | App.chat => (with_chat (ChatInterface.mount now) w1, [])
    | App.voice => (with_voice VoiceInterface.initial w1, [])
    | App.analytics =>
        let '(a, effs) := Analytics.fetchAnalytics o Analytics.initial in
        (with_analytics a w1, effs)
    end.

(** What a click on a button under a chat message runs. *)
Definition chat_click (a : ChatInterface.action) (o : fetch_outcome) (w : world)
  : world * list effect :=
  match a with
  | ChatInterface.Copy c =>
      let r := ChatInterface.copyMessage c (chat w) in
      (with_chat (ChatInterface.final r) w, ChatInterface.effects r)
  | ChatInterface.Feedback messageId type' =>
      let r := ChatInterface.sendFeedback (App.chat_props (app w)) messageId type' o
                 (chat w) in
      (with_chat (ChatInterface.final r) w, ChatInterface.effects r)
  | ChatInterface.Retry index =>
      (with_chat (ChatInterface.retryMessage index (chat w)) w, [])
  end.

(** One event.  An event of a component that is not mounted changes
    nothing.  [ChatClick n] is a click on the [n]-th of the buttons rendered
    under the chat messages. *)
Definition step (w : world) (e : event) : world * list effect :=
  let tab := App.activeTab (app w) in
  match e with
  | HealthCheck o =>
      let '(a, effs) := App.checkSystemHealth o (app w) in (with_app a w, effs)
  | SelectTab t now o => select_tab t now o w
  | SampleQuestion question now =>
      let '(w1, effs) := select_tab App.chat now Rejected w in
      (with_chat (ChatInterface.setInputText question (chat w1)) w1, effs)
  | ChatInput text =>
      if tab_eqb tab App.chat
         && negb (ChatInterface.input_disabled (App.chat_props (app w)) (chat w))
      then (with_chat (ChatInterface.setInputText text (chat w)) w, [])
      else (w, [])
  | ChatSend t0 o t1 =>
      if tab_eqb tab App.chat then
        let r := ChatInterface.sendMessage (App.chat_props (app w)) (chat w) t0 o t1 in
        (with_chat (ChatInterface.final r) w, ChatInterface.effects r)
      else (w, [])
  | ChatClick button o =>
      if tab_eqb tab App.chat then
        match nth_error (ChatInterface.actions (chat w)) button with
        | Some a => chat_click a o w
        | None => (w, [])
        end
      else (w, [])
  | ChatClear =>
      if tab_eqb tab App.chat then
        let r := ChatInterface.clearChat (chat w) in
        (with_chat (ChatInterface.final r) w, ChatInterface.effects r)
      else (w, [])
  | RequestFollowUp =>
      if tab_eqb tab App.chat then
        ({| app := app w; chat := chat w; voice := voice w; analytics := analytics w;
            followUp := Some (App.sessionId (app w)) |}, [])
      else (w, [])
  | FollowUpSend email name o =>
      match followUp w with
      | Some sid => (w, ChatInterface.sendFollowUp sid email name o)
      | None => (w, [])
      end
  | VoiceStop closure audioChunks o now played =>
      if tab_eqb tab App.voice then
        let r := VoiceInterface.processRecording (App.voice_props (app w)) closure
                   audioChunks o now played (voice w) in
        (with_voice (VoiceInterface.final r) w, VoiceInterface.effects r)
      else (w, [])
  | VoiceMute =>
      if tab_eqb tab App.voice then
        (with_voice (VoiceInterface.setIsMuted
                       (negb (VoiceInterface.isMuted (voice w))) (voice w)) w, [])
      else (w, [])
  | VoiceClear =>
      if tab_eqb tab App.voice then
        let '(v, effs) := VoiceInterface.clearConversations (voice w) (voice w) in
        (with_voice v w, effs)
      else (w, [])
  | RangeSelect r o =>
      if tab_eqb tab App.analytics
         && negb (Analytics.option_value r =? Analytics.timeRange (analytics w))
      then
        let '(a, effs) :=
          Analytics.fetchAnalytics o (Analytics.selectTimeRange r (analytics w)) in
        (with_analytics a w, effs)
      else (w, [])
  | Refresh o =>
      if tab_eqb tab App.analytics then
        let '(a, effs) := Analytics.fetchAnalytics o (analytics w) in
        (with_analytics a w, effs)
      else (w, [])
  end.

(** A run: the final world and everything done on the way, in order. *)
Fixpoint run (w : world) (es : list event) : world * list effect :=
  match es with
  | [] => (w, [])
  | e :: es' =>
      let '(w1, effs1) := step w e in
      let '(w2, effs2) := run w1 es' in
      (w2, effs1 ++ effs2)
  end.

End Client.

(* ------------------------------------------------------------------ *)
(** ** Notions the statements are written with *)

Module Notions.
Import JS Net.

(** The user message a click at [t0] adds to the chat. *)
Definition userMessage_at (st : ChatInterface.state) (t0 : Z) : ChatInterface.message :=
  {| ChatInterface.id := Z_toString t0;
     ChatInterface.type := ChatInterface.user;
     ChatInterface.content := VStr (trim (ChatInterface.inputText st));
     ChatInterface.timestamp := t0;
     ChatInterface.intent := VUndefined;
     ChatInterface.confidence := VUndefined;
     ChatInterface.isError := false |}.

(** Whether a health check reports the process ready. *)
Definition outcome_ready (o : fetch_outcome) : bool :=
  match o with
  | Resolved r => ok r
  | Rejected => false
  end.

(** Whether the latest health check among the events [es] reported the
    process ready; [ready] is the answer before them. *)
Fixpoint reported_ready (ready : bool) (es : list Client.event) : bool :=
  match es with
  | [] => ready
  | Client.HealthCheck o :: es' => reported_ready (outcome_ready o) es'
  | _ :: es' => reported_ready ready es'
  end.




(** [100 * count / total] rounded to the nearest integer (halves up), in
    exact arithmetic, for a positive [total]. *)
Definition exact_percentage (count total : Z) : Z :=
  (200 * count + total) / (2 * total).

(** The count recorded for [key], 0 when there is none. *)
Definition recorded (key : string) (daily : list (string * Z)) : Z :=
  match assoc key daily with
  | Some c => c
  | None => 0
  end.

(** The percentage the dashboard computes for [count] out of [total]:
    [Math.round((count / total) * 100)], the quotient first. *)
Definition percentage_of (count : Z) (total : Analytics.count_member) : number :=
  Math_round (mul (div (of_Z count) (Analytics.count_number total)) (of_Z 100)).

Definition intent_row_of (total : Analytics.count_member) (entry : string * Z)
  : Analytics.intent_row :=
  {| Analytics.name := Analytics.title (fst entry);
     Analytics.value := snd entry;
     Analytics.percentage := percentage_of (snd entry) total |}.


(** Whether [100 * count / total] lies halfway between two integers. *)
Definition halfway (count total : Z) : bool :=
  (200 * count + total) mod (2 * total) =? 0.

(** The record [mrs] of the rounding of numbers is the integer part of
    [N / D] with the two bits that place the fraction against one half. *)
Definition places (mrs : shr_record) (N D : Z) : Prop :=
  0 < D /\ 0 <= shr_m mrs /\
  shr_m mrs * D <= N < (shr_m mrs + 1) * D /\
  shr_r mrs = (D <=? 2 * (N - shr_m mrs * D)) /\
  shr_s mrs = negb (N =? shr_m mrs * D) && negb (2 * (N - shr_m mrs * D) =? D).

(** Nothing but white space. *)
Fixpoint blank (s : string) : bool :=
  match s with
  | EmptyString => true
  | String c s' => is_white_space c && blank s'
  end.

(** White space at the front, at the end. *)
Definition starts_with_space (s : string) : bool :=
  match s with
  | EmptyString => false
  | String c _ => is_white_space c
  end.
Definition ends_with_space (s : string) : bool := starts_with_space (string_rev s).

(** How often [c] occurs in [s]. *)
Fixpoint occurrences (c : ascii) (s : string) : nat :=
  match s with
  | EmptyString => O
  | String c' s' => (if Ascii.eqb c' c then 1 else 0) + occurrences c s'
  end.

(** The chat starts with the welcome message. *)
Definition welcomed (st : ChatInterface.state) : Prop :=
  exists now rest,
    ChatInterface.messages st = ChatInterface.welcomeMessage now :: rest.

(** The status line agrees with [isConnected]. *)
Definition status_agrees (a : App.state) : Prop :=
  (App.isConnected a = true /\ App.systemStatus a = "healthy")
  \/ (App.isConnected a = false
      /\ (App.systemStatus a = "checking" \/ App.systemStatus a = "error")).

(** The seconds field of a recording time, for [r] seconds. *)
Definition seconds_field (r : nat) : string :=
  VoiceInterface.padStart 2 "0" (Z_toString (Z.of_nat r)).

(** No health check has come back among the events [es]. *)
Definition never_checked (es : list Client.event) : bool :=
  forallb (fun e => match e with Client.HealthCheck _ => false | _ => true end) es.

End Notions.

(* ------------------------------------------------------------------ *)
(** ** Sample data *)

Module Samples.
Import JS Net.

Definition online : ChatInterface.props :=
  {| ChatInterface.sessionId := "session_1700000000000_k3j9x2m1q";
     ChatInterface.isConnected := true |}.

(** A mounted chat with a question typed in. *)
Definition typed : ChatInterface.state :=
  ChatInterface.setInputText "  What are the admission requirements? "
    (ChatInterface.mount 1700000000500).

Definition replied (data : value) : fetch_outcome :=
  Resolved {| ok := true; status := 200; statusText := "OK"; json := Some data |}.

Definition unavailable : fetch_outcome :=
  Resolved {| ok := false; status := 503; statusText := "Service Unavailable";
              json := None |}.

Definition chat_reply : value :=
  VObj [("response", VStr "Applicants need a completed application and transcripts.");
        ("intent", VStr "admission_requirements");
        ("confidence", VNum (of_Z 1))].

(** A voice reply after a failed transcription: no audio. *)
Definition voice_reply : value :=
  VObj [("transcript", VStr "");
        ("response", VStr "Sorry, I could not understand the audio. Please try again.");
        ("audio_url", VNull);
        ("intent", VStr "unknown");
        ("confidence", VNum (of_Z 0))].

Definition voice_props : VoiceInterface.props :=
  {| VoiceInterface.sessionId := "session_1700000000000_k3j9x2m1q";
     VoiceInterface.isConnected := true |}.

Definition recording : list (list Byte.byte) := [[Byte.x1a; Byte.x45]; [Byte.xdf]].

(** A chat whose only exchange failed. *)
Definition after_failure : ChatInterface.state :=
  ChatInterface.final
    (ChatInterface.sendMessage online typed 1700000001000 Rejected 1700000002000).

(** A chat after one answered exchange. *)
Definition after_reply : ChatInterface.state :=
  ChatInterface.final
    (ChatInterface.sendMessage online typed 1700000001000 (replied chat_reply)
       1700000002000).

Definition week : Analytics.rollup :=
  {| Analytics.total_interactions := Analytics.Count 40;
     Analytics.unique_sessions := Some 12;
     Analytics.intent_distribution :=
       Some [("greeting", 7); ("tuition_fees", 23); ("unknown", 10)];
     Analytics.channel_distribution := Some [("text", 31); ("voice", 9)];
     Analytics.daily_interactions := Some [("2026-10-31", 15); ("2026-11-02", 25)];
     Analytics.average_confidence := None;
     Analytics.average_processing_time := None;
     Analytics.entity_distribution := Some [("program_name", 4); ("date", 6)];
     Analytics.others := [] |}.


Definition week_without_days : Analytics.rollup :=
  {| Analytics.total_interactions := Analytics.Count 40;
     Analytics.unique_sessions := Some 12;
     Analytics.intent_distribution := Some [("tuition_fees", 23); ("unknown", 17)];
     Analytics.channel_distribution := None;
     Analytics.daily_interactions := None;
     Analytics.average_confidence := None;
     Analytics.average_processing_time := None;
     Analytics.entity_distribution := None;
     Analytics.others := [] |}.

Definition loaded (a : Analytics.rollup) : Analytics.state :=
  {| Analytics.analyticsData := Some a; Analytics.timeRange := 7;
     Analytics.isLoading := false |}.

Definition rollup_reply (a : Analytics.rollup) : outcome_of Analytics.payload :=
  Resolved {| ok := true; status := 200; statusText := "OK";
              json := Some (Analytics.Payload (Some a)) |}.

(** 2 November 2026, as a day number. *)
Definition today : Z := 20759.

(** A visit: the health check succeeds, a question is asked and answered,
    the answer is rated, a follow-up is requested, a voice message is sent,
    and the dashboard is opened and switched to 30 days. *)
Definition visit : list Client.event :=
  [Client.HealthCheck (replied VNull);
   Client.ChatInput "How much does tuition cost?";
   Client.ChatSend 1700000001000 (replied chat_reply) 1700000002000;
   Client.ChatClick 4 (replied VNull);
   Client.RequestFollowUp;
   Client.FollowUpSend "ada@example.org" "Ada" (replied VNull);
   Client.SelectTab App.voice 1700000003000 Rejected;
   Client.VoiceStop VoiceInterface.initial recording (replied voice_reply)
     1700000004000 true;
   Client.SelectTab App.analytics 1700000005000 (rollup_reply week);
   Client.RangeSelect Analytics.Last30 (rollup_reply week)].

End Samples.

(* ------------------------------------------------------------------ *)
(** ** Tactics *)

(** Case analysis on whatever the goal branches on. *)
Ltac split_step :=
  repeat match goal with
         | |- context [if ?b then _ else _] => destruct b eqn:?
         | |- context [match ?x with _ => _ end] => destruct x eqn:?
         end.


(** Case analysis on the comparisons of integers in the goal and in the
    hypotheses. *)
Ltac boolean_cases :=
  repeat match goal with
         | |- context [?a <=? ?b] => destruct (Z.leb_spec a b)
         | |- context [?a =? ?b] => destruct (Z.eqb_spec a b)
         | H : context [?a <=? ?b] |- _ => destruct (Z.leb_spec a b)
         | H : context [?a =? ?b] |- _ => destruct (Z.eqb_spec a b)
         end.

(** Projections of a world that was built field by field. *)
Ltac world_fields :=
  cbn [fst snd Client.app Client.chat Client.voice Client.analytics Client.followUp
       Client.with_app Client.with_chat Client.with_voice Client.with_analytics
       App.sessionId App.isConnected App.activeTab App.setActiveTab
       App.setConnection App.systemStatus].

(* ------------------------------------------------------------------ *)
(** * Properties *)

(** ** The chat turn *)

Section ChatTurn.
Import JS Net ChatInterface Notions.

Variable p : props.
Variable st : state.

Lemma sendMessage_begin_blocked (t0 : Z) :
  send_disabled p st = true -> sendMessage_begin p st t0 = None.
Proof.
  unfold send_disabled, sendMessage_begin. intros ->. reflexivity.
Qed.

Lemma sendMessage_begin_sent (t0 : Z) :
  send_disabled p st = false ->
  sendMessage_begin p st t0 =
    Some ({| messages := messages st ++ [userMessage_at st t0]; inputText := "";
             isLoading := true; isTyping := true |},
          chat_request p (userMessage_at st t0)).
Proof.
  unfold send_disabled, sendMessage_begin. intros ->. reflexivity.
Qed.

Lemma sendMessage_blocked (t0 t1 : Z) (o : fetch_outcome) :
  send_disabled p st = true ->
  sendMessage p st t0 o t1 = {| final := st; effects := []; uncaught := None |}.
Proof.
  intros H. unfold sendMessage. rewrite sendMessage_begin_blocked by exact H.
  reflexivity.
Qed.

Lemma disconnected_disabled : isConnected p = false -> send_disabled p st = true.
Proof.
  unfold send_disabled. intros ->. rewrite !orb_true_r. reflexivity.
Qed.

End ChatTurn.

(** The catch block, whatever happened to the state while the request was
    in flight: the error message is appended and both flags are lowered. *)
Lemma sendMessage_settle_failure (st : ChatInterface.state) (o : Net.fetch_outcome)
    (e : JS.exn) (now : Z) :
  Net.await_json o = inl e ->
  ChatInterface.sendMessage_settle st o now =
    {| ChatInterface.final :=
         {| ChatInterface.messages :=
              ChatInterface.messages st ++ [ChatInterface.errorMessage now];
            ChatInterface.inputText := ChatInterface.inputText st;
            ChatInterface.isLoading := false;
            ChatInterface.isTyping := false |};
       ChatInterface.effects :=
         [Net.ConsoleError "Error sending message:";
          Net.ToastError "Failed to send message. Please try again."];
       ChatInterface.uncaught := None |}.
Proof.
  intros H. unfold ChatInterface.sendMessage_settle. rewrite H. reflexivity.
Qed.

Lemma await_json_failure (o : Net.fetch_outcome) :
  o = Net.Rejected \/ (exists r, o = Net.Resolved r /\ Net.ok r = false) ->
  exists e, Net.await_json o = inl e.
Proof.
  intros [-> | [r [-> Hok]]]; simpl.
  - eexists; reflexivity.
  - rewrite Hok. eexists; reflexivity.
Qed.

(** C1.  A chat turn that is sent posts one request to /api/chat whose body
    has exactly the members [message] (the trimmed input) and [session_id],
    in that order; and when the reply is parsed to [data], the bot message
    appended after the user message has [data.response], [data.intent] and
    [data.confidence] as its content, intent and confidence. *)
Theorem chat_turn_contract (p : ChatInterface.props) (st : ChatInterface.state)
    (t0 t1 : Z) (o : Net.fetch_outcome) :
  ChatInterface.send_disabled p st = false ->
  let out := ChatInterface.sendMessage p st t0 o t1 in
  (exists req,
      Net.requests (ChatInterface.effects out) = [req]
      /\ Net.url req = "/api/chat"
      /\ Net.method req = "POST"
      /\ Net.req_body req =
           Net.JsonBody [("message", JS.VStr (JS.trim (ChatInterface.inputText st)));
                         ("session_id", JS.VStr (ChatInterface.sessionId p))]
      /\ Net.body_keys req = ["message"; "session_id"])
  /\ (forall data response intent confidence,
        Net.await_json o = inr data ->
        JS.get data "response" = inr response ->
        JS.get data "intent" = inr intent ->
        JS.get data "confidence" = inr confidence ->
        exists userMessage botMessage,
          ChatInterface.messages (ChatInterface.final out) =
            ChatInterface.messages st ++ [userMessage; botMessage]
          /\ ChatInterface.type userMessage = ChatInterface.user
          /\ ChatInterface.type botMessage = ChatInterface.bot
          /\ ChatInterface.isError botMessage = false
          /\ ChatInterface.content botMessage = response
          /\ ChatInterface.intent botMessage = intent
          /\ ChatInterface.confidence botMessage = confidence).
Proof.
  intros Hsend out. subst out. unfold ChatInterface.sendMessage.
  rewrite sendMessage_begin_sent by exact Hsend. split.
  - eexists. cbn [ChatInterface.effects Net.requests flat_map].
    assert (Hnone : Net.requests
              (ChatInterface.effects
                 (ChatInterface.sendMessage_settle
                    {| ChatInterface.messages :=
                         ChatInterface.messages st ++ [Notions.userMessage_at st t0];
                       ChatInterface.inputText := "";
                       ChatInterface.isLoading := true;
                       ChatInterface.isTyping := true |} o t1)) = []).
    { unfold ChatInterface.sendMessage_settle.
      destruct (Net.await_json o) as [e | data]; [reflexivity |].
      destruct (ChatInterface.sendMessage_timeout data _ t1); reflexivity. }
    unfold Net.requests in Hnone. rewrite Hnone.
    repeat split; reflexivity.
  - intros data response intent confidence Hdata Hr Hi Hc.
    unfold ChatInterface.sendMessage_settle, ChatInterface.sendMessage_timeout.
    rewrite Hdata, Hr, Hi, Hc. cbn.
    eexists; eexists. rewrite <- app_assoc. cbn.
    repeat split; reflexivity.
Qed.

(** C4.  When the fetch of a chat turn is rejected or answered with a
    status that is not ok, the turn ends normally: after the user message
    the chat holds a bot message flagged as an error whose text gives the
    phone number of the admissions office, and [isLoading] and [isTyping]
    are false again. *)
Theorem chat_failure_answered (p : ChatInterface.props) (st : ChatInterface.state)
    (t0 t1 : Z) (o : Net.fetch_outcome) :
  ChatInterface.send_disabled p st = false ->
  o = Net.Rejected \/ (exists r, o = Net.Resolved r /\ Net.ok r = false) ->
  let out := ChatInterface.sendMessage p st t0 o t1 in
  exists reply,
    ChatInterface.messages (ChatInterface.final out) =
      ChatInterface.messages st ++ [Notions.userMessage_at st t0; reply]
    /\ ChatInterface.type reply = ChatInterface.bot
    /\ ChatInterface.isError reply = true
    /\ ChatInterface.content reply =
         JS.VStr ("I'm sorry, I'm having trouble connecting right now. Please try again or contact our admissions office directly at "
                  +++ "(555) 123-4567" +++ ".")
    /\ ChatInterface.isLoading (ChatInterface.final out) = false
    /\ ChatInterface.isTyping (ChatInterface.final out) = false
    /\ ChatInterface.uncaught out = None.
Proof.
  intros Hsend Hfail out. subst out.
  destruct (await_json_failure o Hfail) as [e He].
  unfold ChatInterface.sendMessage.
  rewrite sendMessage_begin_sent by exact Hsend.
  rewrite (sendMessage_settle_failure _ o e t1 He).
  exists (ChatInterface.errorMessage t1). cbn.
  rewrite <- app_assoc. repeat split; reflexivity.
Qed.

Lemma requests_sendFollowUp (sid email name : string) (o : Net.fetch_outcome) :
  Net.requests (ChatInterface.sendFollowUp sid email name o) =
    match email, name with
    | EmptyString, _ | _, EmptyString => []
    | _, _ =>
        [Net.post_json "/api/followup"
           [("email", JS.VStr email); ("name", JS.VStr name);
            ("session_id", JS.VStr sid); ("inquiry_type", JS.VStr "general")]]
    end.
Proof.
  unfold ChatInterface.sendFollowUp.
  destruct email as [| c e]; [reflexivity |].
  destruct name as [| c' n]; [reflexivity |].
  destruct o; reflexivity.
Qed.

(** C5.  The follow-up handler posts nothing when the email or the name is
    empty; otherwise it posts one request to /api/followup whose body has
    exactly the members [email], [name], [session_id] and [inquiry_type]. *)
Theorem followup_validated (sid email name : string) (o : Net.fetch_outcome) :
  (email = "" \/ name = "" ->
   Net.requests (ChatInterface.sendFollowUp sid email name o) = [])
  /\ (email <> "" -> name <> "" ->
      exists req,
        Net.requests (ChatInterface.sendFollowUp sid email name o) = [req]
        /\ Net.url req = "/api/followup"
        /\ Net.method req = "POST"
        /\ Net.body_keys req = ["email"; "name"; "session_id"; "inquiry_type"]
        /\ Net.req_body req =
             Net.JsonBody [("email", JS.VStr email); ("name", JS.VStr name);
                           ("session_id", JS.VStr sid);
                           ("inquiry_type", JS.VStr "general")]).
Proof.
  rewrite requests_sendFollowUp. split.
  - intros [-> | ->]; [reflexivity |].
    destruct email; reflexivity.
  - intros He Hn.
    destruct email as [| c e]; [contradiction He; reflexivity |].
    destruct name as [| c' n]; [contradiction Hn; reflexivity |].
    eexists. repeat split; reflexivity.
Qed.

Lemma actions_from_feedback (ms : list ChatInterface.message) :
  forall (index : nat) (messageId type' : string),
    In (ChatInterface.Feedback messageId type') (ChatInterface.actions_from index ms) ->
    (type' = "positive" \/ type' = "negative")
    /\ exists m, In m ms
                 /\ ChatInterface.id m = messageId
                 /\ ChatInterface.type m = ChatInterface.bot
                 /\ ChatInterface.isError m = false.
Proof.
  induction ms as [| m ms IH]; intros index messageId type' Hin.
  - contradiction.
  - cbn [ChatInterface.actions_from] in Hin. apply in_app_or in Hin.
    destruct Hin as [Hhere | Hlater].
    + unfold ChatInterface.message_actions in Hhere.
      destruct (ChatInterface.type m) eqn:Ht, (ChatInterface.isError m) eqn:He;
        cbn in Hhere;
        repeat match goal with
               | H : _ \/ _ |- _ => destruct H
               | H : False |- _ => contradiction
               | H : _ = ChatInterface.Feedback _ _ |- _ => inversion H; subst; clear H
               end.
      * split; [left; reflexivity |]. exists m. cbn. auto.
      * split; [right; reflexivity |]. exists m. cbn. auto.
    + destruct (IH _ _ _ Hlater) as [Hty [m' [Hm' Hrest]]].
      split; [exact Hty |]. exists m'. split; [right; exact Hm' | exact Hrest].
Qed.

(** C7.  A feedback button is rendered only under a bot message that is
    not an error message, and only for the types positive and negative.
    Clicking it posts one request to /api/feedback whose body has exactly
    the members [session_id], [message_id] and [feedback_type]; whatever
    the reply, the state of the chat (the conversation with it) is left as
    it was. *)
Theorem feedback_contract (p : ChatInterface.props) (st : ChatInterface.state)
    (button : nat) (messageId type' : string) (o : Net.fetch_outcome) :
  nth_error (ChatInterface.actions st) button
    = Some (ChatInterface.Feedback messageId type') ->
  let out := ChatInterface.sendFeedback p messageId type' o st in
  (type' = "positive" \/ type' = "negative")
  /\ (exists m, In m (ChatInterface.messages st)
                /\ ChatInterface.id m = messageId
                /\ ChatInterface.type m = ChatInterface.bot
                /\ ChatInterface.isError m = false)
  /\ (exists req,
        Net.requests (ChatInterface.effects out) = [req]
        /\ Net.url req = "/api/feedback"
        /\ Net.body_keys req = ["session_id"; "message_id"; "feedback_type"]
        /\ Net.req_body req =
             Net.JsonBody [("session_id", JS.VStr (ChatInterface.sessionId p));
                           ("message_id", JS.VStr messageId);
                           ("feedback_type", JS.VStr type')])
  /\ ChatInterface.final out = st
  /\ ChatInterface.uncaught out = None.
Proof.
  intros Hbutton out. subst out.
  apply nth_error_In in Hbutton.
  destruct (actions_from_feedback _ _ _ _ Hbutton) as [Hty Hm].
  split; [exact Hty |]. split; [exact Hm |]. split.
  - eexists. destruct o; cbn; repeat split; reflexivity.
  - split; reflexivity.
Qed.

(** ** The requests of a run *)

Section Requests.
Import JS Net Notions.

Lemma requests_app (a b : list effect) : requests (a ++ b) = requests a ++ requests b.
Proof. unfold requests. apply flat_map_app. Qed.

Lemma requests_sendMessage (p : ChatInterface.props) (st : ChatInterface.state)
    (t0 t1 : Z) (o : fetch_outcome) :
  requests (ChatInterface.effects (ChatInterface.sendMessage p st t0 o t1)) =
    if ChatInterface.send_disabled p st then []
    else [ChatInterface.chat_request p (userMessage_at st t0)].
Proof.
  destruct (ChatInterface.send_disabled p st) eqn:Hd.
  - rewrite sendMessage_blocked by exact Hd. reflexivity.
  - unfold ChatInterface.sendMessage. rewrite sendMessage_begin_sent by exact Hd.
    unfold ChatInterface.sendMessage_settle.
    destruct (await_json o) as [e | data]; [reflexivity |].
    destruct (ChatInterface.sendMessage_timeout data _ t1); reflexivity.
Qed.

Lemma sent_not_blank (p : ChatInterface.props) (st : ChatInterface.state) :
  ChatInterface.send_disabled p st = false -> trim (ChatInterface.inputText st) <> "".
Proof.
  unfold ChatInterface.send_disabled. intros H Hblank. rewrite Hblank in H.
  discriminate H.
Qed.

Lemma requests_playAudio (closure st : VoiceInterface.state) (audioUrl : value)
    (played : bool) :
  requests (snd (fst (VoiceInterface.playAudio closure audioUrl played st))) = []
  /\ requests (snd (VoiceInterface.playAudio closure audioUrl played st)) = [].
Proof.
  unfold VoiceInterface.playAudio.
  destruct (VoiceInterface.currentAudio closure), played; split; reflexivity.
Qed.

Lemma requests_processRecording_try (closure st st' : VoiceInterface.state)
    (data : value) (now : Z) (played : bool) (effs : list effect) :
  VoiceInterface.processRecording_try closure data now played st = inr (st', effs) ->
  requests effs = [].
Proof.
  unfold VoiceInterface.processRecording_try.
  destruct (get data "transcript"), (get data "response"), (get data "audio_url") as [| u],
    (get data "intent"), (get data "confidence"); try discriminate.
  destruct (negb (VoiceInterface.isMuted closure) && truthy u).
  - pose proof (requests_playAudio closure
                  (VoiceInterface.setRecordingTime 0
                     (VoiceInterface.setConversations
                        (fun prev => prev ++ [ {| VoiceInterface.id := Z_toString now;
                                                  VoiceInterface.timestamp := now;
                                                  VoiceInterface.transcript := v;
                                                  VoiceInterface.response := v0;
                                                  VoiceInterface.audioUrl := u;
                                                  VoiceInterface.intent := v1;
                                                  VoiceInterface.confidence := v2;
                                                  VoiceInterface.recordingDuration :=
                                                    VoiceInterface.recordingTime closure |} ])
                        st)) u played) as [H1 H2].
    destruct (VoiceInterface.playAudio _ u played _) as [[st2 es] late].
    intros H. inversion H; subst. cbn [fst snd] in H1, H2.
    rewrite requests_app, H1. unfold requests in H2 |- *. cbn. exact H2.
  - intros H. inversion H; subst. reflexivity.
Qed.


Lemma requests_fetchAnalytics (o : outcome_of Analytics.payload) (st : Analytics.state) :
  requests (snd (Analytics.fetchAnalytics o st)) = [Analytics.analytics_request st]
  /\ Analytics.timeRange (fst (Analytics.fetchAnalytics o st)) = Analytics.timeRange st.
Proof.
  unfold Analytics.fetchAnalytics.
  destruct (await_json o) as [e | [| a]]; split; reflexivity.
Qed.


End Requests.

Section Runs.
Import JS Net Notions Client.

Lemma checkSystemHealth_spec (o : fetch_outcome) (a : App.state) :
  fst (App.checkSystemHealth o a) =
    App.setConnection (outcome_ready o)
      (if outcome_ready o then "healthy" else "error") a
  /\ requests (snd (App.checkSystemHealth o a)) = [App.health_request].
Proof.
  unfold App.checkSystemHealth, outcome_ready.
  destruct o as [| r]; [split; reflexivity |].
  destruct (ok r); split; reflexivity.
Qed.

Lemma select_tab_spec (t : App.tab) (now : Z) (o : outcome_of Analytics.payload)
    (w : world) :
  let w' := fst (select_tab t now o w) in
  App.sessionId (app w') = App.sessionId (app w)
  /\ App.isConnected (app w') = App.isConnected (app w)
  /\ followUp w' = followUp w
  /\ (analytics w' = analytics w
      \/ Analytics.timeRange (analytics w') = 7)
  /\ (requests (snd (select_tab t now o w)) = []
      \/ requests (snd (select_tab t now o w))
         = [Analytics.analytics_request Analytics.initial]).
Proof.
  unfold select_tab.
  destruct (tab_eqb t (App.activeTab (app w))).
  - cbn. auto 6.
  - destruct t.
    + cbn. auto 6.
    + cbn. auto 6.
    + destruct (requests_fetchAnalytics o Analytics.initial) as [Hreq Htr].
      destruct (Analytics.fetchAnalytics o Analytics.initial) as [a effs].
      cbn [fst snd] in *. world_fields. rewrite Hreq, Htr. cbn. auto 6.
Qed.

(** A step changes [isConnected] only on a health check, and then to what
    the check reported. *)
Lemma step_isConnected (w : world) (e : event) :
  App.isConnected (app (fst (step w e))) =
    match e with
    | HealthCheck o => outcome_ready o
    | _ => App.isConnected (app w)
    end.
Proof.
  destruct e; unfold step.
  - destruct (checkSystemHealth_spec o (app w)) as [H _].
    destruct (App.checkSystemHealth o (app w)) as [a effs].
    cbn [fst] in H. subst a. reflexivity.
  - apply (select_tab_spec t now o w).
  - pose proof (select_tab_spec App.chat now Rejected w) as [_ [H _]].
    destruct (select_tab App.chat now Rejected w) as [w1 effs].
    exact H.
  - split_step; reflexivity.
  - split_step; reflexivity.
  - unfold chat_click. split_step; reflexivity.
  - split_step; reflexivity.
  - split_step; reflexivity.
  - split_step; reflexivity.
  - split_step; reflexivity.
  - split_step; reflexivity.
  - split_step; reflexivity.
  - split_step; reflexivity.
  - split_step; reflexivity.
Qed.






Lemma run_isConnected (es : list event) :
  forall w, App.isConnected (app (fst (run w es)))
            = reported_ready (App.isConnected (app w)) es.
Proof.
  induction es as [| e es IH]; intros w.
  - reflexivity.
  - cbn [run]. pose proof (step_isConnected w e) as H1.
    destruct (step w e) as [w1 effs1]. cbn [fst] in H1.
    specialize (IH w1).
    destruct (run w1 es) as [w2 effs2]. cbn [fst] in *.
    rewrite IH, H1. destruct e; reflexivity.
Qed.

End Runs.

(** C3.  As long as the latest health check has not reported the process
    ready (none has yet, or the latest one failed), [isConnected] is false,
    the send button is disabled, and a send changes neither the messages
    nor anything else and issues no request. *)
Theorem health_check_gates_chat (now : Z) (random36 : string)
    (es : list Client.event) (t0 t1 : Z) (o : Net.fetch_outcome) :
  Notions.reported_ready false es = false ->
  let w := fst (Client.run (Client.start now random36) es) in
  App.isConnected (Client.app w) = false
  /\ ChatInterface.send_disabled (App.chat_props (Client.app w)) (Client.chat w) = true
  /\ ChatInterface.sendMessage (App.chat_props (Client.app w)) (Client.chat w) t0 o t1
     = {| ChatInterface.final := Client.chat w;
          ChatInterface.effects := [];
          ChatInterface.uncaught := None |}
  /\ Client.step w (Client.ChatSend t0 o t1) = (w, []).
Proof.
  intros Hready w.
  assert (Hoff : App.isConnected (Client.app w) = false).
  { subst w. rewrite run_isConnected. exact Hready. }
  assert (Hdis : ChatInterface.send_disabled (App.chat_props (Client.app w))
                   (Client.chat w) = true).
  { apply disconnected_disabled. exact Hoff. }
  pose proof (sendMessage_blocked _ _ t0 t1 o Hdis) as Hnoop.
  repeat split; try assumption.
  unfold Client.step. rewrite Hnoop.
  destruct (Client.tab_eqb _ _); [| reflexivity].
  destruct w; reflexivity.
Qed.


Lemma get_defined (data v : JS.value) (k : string) :
  JS.get data k = inr v -> forall k', exists v', JS.get data k' = inr v'.
Proof.
  intros H k'. destruct data; try discriminate H;
    try (exists JS.VUndefined; reflexivity).
  cbn. destruct (JS.assoc k' fields); eexists; reflexivity.
Qed.


(** ** The dashboard *)

Section Sorting.
Import Analytics.
Context {A : Type}.

Lemma insert_permutation (after : A -> A -> bool) (x : A) (l : list A) :
  Permutation (insert after x l) (x :: l).
Proof.
  induction l as [| y l IH]; cbn.
  - apply Permutation_refl.
  - destruct (after x y).
    + apply perm_trans with (y :: x :: l).
      * apply perm_skip. exact IH.
      * apply perm_swap.
    + apply Permutation_refl.
Qed.

Lemma sort_permutation (after : A -> A -> bool) (l : list A) :
  Permutation (sort after l) l.
Proof.
  induction l as [| x l IH]; cbn.
  - apply perm_nil.
  - apply perm_trans with (x :: sort after l).
    + apply insert_permutation.
    + apply perm_skip. exact IH.
Qed.

(** Sorting with the comparator [(a, b) => key b - key a] puts the keys in
    descending order. *)
Variable key : A -> Z.

Lemma insert_descending (x : A) (l : list A) :
  StronglySorted (fun a b => key a >= key b) l ->
  StronglySorted (fun a b => key a >= key b)
    (insert (fun a b => key b - key a >? 0) x l).
Proof.
  induction l as [| y l IH]; intros Hs; cbn.
  - constructor; constructor.
  - inversion Hs as [| y' l' Hl Hy]; subst.
    destruct (key y - key x >? 0) eqn:Hxy.
    + constructor; [apply IH; exact Hl |].
      apply (Permutation_Forall
               (Permutation_sym (insert_permutation _ x l))).
      constructor; [lia | exact Hy].
    + constructor; [exact Hs |].
      assert (Hge : key x >= key y) by lia.
      constructor; [exact Hge |].
      eapply Forall_impl; [| exact Hy].
      intros z Hz. cbn in Hz. lia.
Qed.

Lemma sort_descending (l : list A) :
  StronglySorted (fun a b => key a >= key b)
    (sort (fun a b => key b - key a >? 0) l).
Proof.
  induction l as [| x l IH]; cbn.
  - constructor.
  - apply insert_descending. exact IH.
Qed.

End Sorting.

Section Daily.
Import JS Analytics Notions.
Variable Date : Type.
Variable subDays : Date -> Z -> Date.
Variable format : Date -> string -> string.
Variable now : Date.
Variable daily : list (string * Z).

Lemma daily_entry_recorded (i : Z) :
  daily_entry Date subDays format now daily i =
    {| date := format (subDays now i) "MMM dd";
       interactions := recorded (format (subDays now i) "yyyy-MM-dd") daily |}.
Proof.
  unfold daily_entry, recorded.
  destruct (assoc _ daily) as [c |]; [| reflexivity].
  destruct (c =? 0) eqn:Hc; [| reflexivity].
  apply Z.eqb_eq in Hc. subst c. reflexivity.
Qed.

Lemma daily_loop_length (k : nat) :
  List.length (daily_loop Date subDays format now daily k) = k.
Proof. induction k as [| k IH]; cbn; [reflexivity | rewrite IH; reflexivity]. Qed.

(** The [j]-th entry pushed by a loop of [k] iterations is the one for
    [i = k - 1 - j]. *)
Lemma daily_loop_nth (k : nat) :
  forall j, (j < k)%nat ->
            nth_error (daily_loop Date subDays format now daily k) j =
              Some (daily_entry Date subDays format now daily (Z.of_nat (k - 1 - j))).
Proof.
  induction k as [| k IH]; intros j Hj; [lia |].
  destruct j as [| j]; cbn [daily_loop nth_error].
  - replace (S k - 1 - 0)%nat with k by lia. reflexivity.
  - rewrite IH by lia. replace (S k - 1 - S j)%nat with (k - 1 - j)%nat by lia.
    reflexivity.
Qed.

End Daily.

(** ** The arithmetic of percentages *)

(** The operations on numbers round to the nearest number.  What follows
    establishes this for the quotient and the product the percentages are
    made of, from the definition of the operations. *)
Section Rounding.

Lemma digits2_pos_bounds (p : positive) :
  2 ^ (Z.pos (digits2_pos p) - 1) <= Z.pos p < 2 ^ Z.pos (digits2_pos p).
Proof.
  induction p as [p IH | p IH |]; cbn [digits2_pos].
  - rewrite Pos2Z.inj_succ.
    replace (Z.succ (Z.pos (digits2_pos p)) - 1)
      with (Z.succ (Z.pos (digits2_pos p) - 1)) by lia.
    rewrite !Z.pow_succ_r by lia. lia.
  - rewrite Pos2Z.inj_succ.
    replace (Z.succ (Z.pos (digits2_pos p)) - 1)
      with (Z.succ (Z.pos (digits2_pos p) - 1)) by lia.
    rewrite !Z.pow_succ_r by lia. lia.
  - cbn. lia.
Qed.

Lemma digits2_pos_unique (p : positive) (d : Z) :
  2 ^ (d - 1) <= Z.pos p < 2 ^ d -> 0 < d -> Z.pos (digits2_pos p) = d.
Proof.
  intros [Hlow Hhigh] Hd.
  pose proof (digits2_pos_bounds p) as [Hlow' Hhigh'].
  assert (Hlt1 : 2 ^ (d - 1) < 2 ^ Z.pos (digits2_pos p)) by lia.
  assert (Hlt2 : 2 ^ (Z.pos (digits2_pos p) - 1) < 2 ^ d) by lia.
  apply Z.pow_lt_mono_r_iff in Hlt1; [| lia | lia].
  apply Z.pow_lt_mono_r_iff in Hlt2; [| lia | lia].
  lia.
Qed.

Lemma shr_1_places (mrs : shr_record) (N D : Z) :
  Notions.places mrs N D -> Notions.places (shr_1 mrs) N (2 * D).
Proof.
  destruct mrs as [m r s]. unfold Notions.places. cbn [shr_m shr_r shr_s].
  intros (HD & Hm & Hin & Hr & Hs).
  destruct m as [| [p | p |] | p]; try lia; cbn [shr_1 shr_m shr_r shr_s].
  - subst r s. repeat split; try lia; boolean_cases; cbn; try reflexivity; lia.
  - rewrite Pos2Z.inj_xI in *.
    subst r s. repeat split; try lia; boolean_cases; cbn; try reflexivity; lia.
  - rewrite Pos2Z.inj_xO in *.
    subst r s. repeat split; try lia; boolean_cases; cbn; try reflexivity; lia.
  - subst r s. repeat split; try lia; boolean_cases; cbn; try reflexivity; lia.
Qed.

Lemma iter_shr_1_places (p : positive) :
  forall (mrs : shr_record) (N D : Z),
    Notions.places mrs N D -> Notions.places (iter_pos shr_1 p mrs) N (2 ^ Z.pos p * D).
Proof.
  induction p as [p IH | p IH |]; intros mrs N D H; cbn [iter_pos].
  - apply shr_1_places in H. apply IH in H. apply IH in H.
    replace (2 ^ Z.pos p~1 * D) with (2 ^ Z.pos p * (2 ^ Z.pos p * (2 * D)));
      [exact H |].
    replace (Z.pos p~1) with (Z.pos p + Z.pos p + 1) by lia.
    rewrite !Z.pow_add_r by lia. change (2 ^ 1) with 2. ring.
  - apply IH in H. apply IH in H.
    replace (2 ^ Z.pos p~0 * D) with (2 ^ Z.pos p * (2 ^ Z.pos p * D));
      [exact H |].
    replace (Z.pos p~0) with (Z.pos p + Z.pos p) by lia.
    rewrite !Z.pow_add_r by lia. ring.
  - apply shr_1_places in H. exact H.
Qed.

Lemma shr_places (mrs : shr_record) (e n N D : Z) :
  0 <= n -> Notions.places mrs N D ->
  Notions.places (fst (shr mrs e n)) N (2 ^ n * D) /\ snd (shr mrs e n) = e + n.
Proof.
  intros Hn H. destruct n as [| p | p]; try lia; cbn [shr fst snd].
  - rewrite Z.pow_0_r, Z.mul_1_l. split; [exact H | lia].
  - split; [apply iter_shr_1_places; exact H | reflexivity].
Qed.

Lemma places_loc (m : Z) (l : location) (N D : Z) :
  0 < D -> 0 <= m -> m * D <= N < (m + 1) * D ->
  l = (if N =? m * D then loc_Exact
       else loc_Inexact (Z.compare (2 * (N - m * D)) D)) ->
  Notions.places (shr_record_of_loc m l) N D.
Proof.
  intros HD Hm Hin ->. unfold Notions.places.
  destruct (Z.eqb_spec N (m * D)) as [Heq | Hne].
  - cbn [shr_record_of_loc shr_m shr_r shr_s].
    repeat split; try lia; boolean_cases; cbn [negb andb]; try reflexivity; lia.
  - destruct (Z.compare_spec (2 * (N - m * D)) D) as [Hc | Hc | Hc];
      cbn [shr_record_of_loc shr_m shr_r shr_s]; repeat split; try lia;
      boolean_cases; cbn [negb andb]; try reflexivity; lia.
Qed.

Lemma round_nearest_even_places (mrs : shr_record) (N D : Z) :
  Notions.places mrs N D ->
  let m := round_nearest_even (shr_m mrs) (loc_of_shr_record mrs) in
  shr_m mrs <= m <= shr_m mrs + 1 /\ - D <= 2 * (m * D - N) <= D.
Proof.
  destruct mrs as [m r s]. unfold Notions.places. cbn [shr_m shr_r shr_s].
  intros (HD & Hm & Hin & Hr & Hs).
  revert Hr Hs.
  destruct r, s; cbn [loc_of_shr_record round_nearest_even];
    intros Hr Hs; symmetry in Hr, Hs; boolean_cases; cbn [negb andb] in Hr, Hs;
    try discriminate; try (destruct (Z.even m)); lia.
Qed.

Lemma shr_m_of_loc (m : Z) (l : location) : shr_m (shr_record_of_loc m l) = m.
Proof. destruct l as [| []]; reflexivity. Qed.

Lemma shr_fexp_normal (m : positive) (e n : Z) (l : location) :
  Z.pos (digits2_pos m) - 53 = n -> -1074 <= e + n ->
  shr_fexp 53 1024 (Z.pos m) e l = shr (shr_record_of_loc (Z.pos m) l) e n.
Proof.
  intros Hn Hlow. unfold shr_fexp, fexp, emin, Zdigits2.
  f_equal. lia.
Qed.

Lemma binary_round_aux_normal
    (sx : bool) (mx : positive) (ex : Z) (lx : location) (N D d : Z) :
  Z.pos (digits2_pos mx) = d -> 53 <= d ->
  -1074 <= ex + d - 53 -> ex + d - 52 <= 971 ->
  Notions.places (shr_record_of_loc (Z.pos mx) lx) N D ->
  exists (m : positive) (a : Z),
    binary_round_aux 53 1024 sx (Z.pos mx) ex lx = S754_finite sx m (ex + a) /\
    d - 53 <= a <= d - 52 /\
    2 ^ 52 <= Z.pos m < 2 ^ 53 /\
    - (2 ^ a * D) <= 2 * (Z.pos m * (2 ^ a * D) - N) <= 2 ^ a * D.
Proof.
  intros Hd Hd53 Hlow Hhigh Hplaces.
  pose proof (digits2_pos_bounds mx) as Hmx. rewrite Hd in Hmx.
  unfold binary_round_aux.
  rewrite (shr_fexp_normal mx ex (d - 53) lx) by lia.
  destruct (shr_places _ ex (d - 53) N D ltac:(lia) Hplaces) as [Hp1 He1].
  destruct (shr (shr_record_of_loc (Z.pos mx) lx) ex (d - 53)) as [mrs1 e1].
  cbn [fst snd] in Hp1, He1. subst e1.
  assert (HD : 0 < D) by apply Hplaces.
  assert (Hpow : 0 < 2 ^ (d - 53)) by (apply Z.pow_pos_nonneg; lia).
  assert (Hm1 : 2 ^ 52 <= shr_m mrs1 < 2 ^ 53).
  { destruct Hplaces as (_ & _ & Hin & _). rewrite shr_m_of_loc in Hin.
    destruct Hp1 as (_ & _ & Hin1 & _).
    assert (Hl : 2 ^ (d - 1) = 2 ^ 52 * 2 ^ (d - 53)).
    { rewrite <- Z.pow_add_r by lia. f_equal. lia. }
    assert (Hh : 2 ^ d = 2 ^ 53 * 2 ^ (d - 53)).
    { rewrite <- Z.pow_add_r by lia. f_equal. lia. }
    rewrite Hl, Hh in Hmx. nia. }
  pose proof (round_nearest_even_places mrs1 N _ Hp1) as [Hm2 Herr].
  destruct (round_nearest_even (shr_m mrs1) (loc_of_shr_record mrs1))
    as [| p2 | p2]; try lia.
  destruct (Z.eq_dec (Z.pos p2) (2 ^ 53)) as [Hcarry | Hno].
  - assert (Hp2 : p2 = (2 ^ 53)%positive) by lia. subst p2.
    rewrite (shr_fexp_normal _ (ex + (d - 53)) 1 loc_Exact)
      by (try reflexivity; lia).
    cbn [shr shr_record_of_loc iter_pos].
    change (shr_m (shr_1 {| shr_m := Z.pos (2 ^ 53); shr_r := false;
                            shr_s := false |}))
      with (Z.pos (2 ^ 52)).
    replace (ex + (d - 53) + 1 <=? 1024 - 53) with true
      by (symmetry; apply Z.leb_le; lia).
    exists (2 ^ 52)%positive, (d - 52).
    split; [f_equal; lia |].
    split; [lia |]. split; [lia |].
    replace (2 ^ (d - 52)) with (2 * 2 ^ (d - 53)).
    + lia.
    + replace (d - 52) with (Z.succ (d - 53)) by lia.
      rewrite Z.pow_succ_r by lia. reflexivity.
  - rewrite (shr_fexp_normal p2 (ex + (d - 53)) 0 loc_Exact).
    + cbn [shr shr_record_of_loc shr_m].
      replace (ex + (d - 53) <=? 1024 - 53) with true
        by (symmetry; apply Z.leb_le; lia).
      exists p2, (d - 53). repeat split; try lia.
    + rewrite (digits2_pos_unique p2 53); lia.
    + lia.
Qed.

Lemma binary_round_aux_exact (sx : bool) (mx : positive) (ex : Z) :
  2 ^ 52 <= Z.pos mx < 2 ^ 53 -> -1074 <= ex <= 971 ->
  binary_round_aux 53 1024 sx (Z.pos mx) ex loc_Exact = S754_finite sx mx ex.
Proof.
  intros Hmx Hex. unfold binary_round_aux.
  assert (Hd : Z.pos (digits2_pos mx) - 53 = 0)
    by (rewrite (digits2_pos_unique mx 53); lia).
  rewrite (shr_fexp_normal mx ex 0 loc_Exact) by lia.
  cbn [shr shr_record_of_loc shr_m loc_of_shr_record round_nearest_even].
  rewrite (shr_fexp_normal mx ex 0 loc_Exact) by lia.
  cbn [shr shr_record_of_loc shr_m].
  replace (ex <=? 1024 - 53) with true
    by (symmetry; apply Z.leb_le; lia).
  reflexivity.
Qed.

Lemma Pos_iter_xO (n p : positive) :
  Z.pos (Pos.iter xO p n) = Z.pos p * 2 ^ Z.pos n.
Proof.
  induction n as [| n IH] using Pos.peano_ind.
  - cbn [Pos.iter]. rewrite Pos2Z.inj_xO, Z.pow_1_r. lia.
  - rewrite Pos.iter_succ, Pos2Z.inj_xO, IH, Pos2Z.inj_succ, Z.pow_succ_r; lia.
Qed.

(** An integer below 2^53 is a number: its significand is the integer
    shifted to 53 bits. *)
Lemma of_Z_exact (c : Z) :
  0 < c < 2 ^ 53 ->
  exists (m : positive) (k : Z),
    JS.of_Z c = S754_finite false m (- k) /\ 0 <= k <= 52 /\
    Z.pos m = c * 2 ^ k /\ 2 ^ 52 <= Z.pos m < 2 ^ 53.
Proof.
  intros Hc. destruct c as [| p | p]; try lia.
  pose proof (digits2_pos_bounds p) as Hp.
  set (d := Z.pos (digits2_pos p)) in *.
  assert (Hd : 1 <= d <= 53).
  { split; [unfold d; lia |].
    assert (Hlt : 2 ^ (d - 1) < 2 ^ 53) by lia.
    apply Z.pow_lt_mono_r_iff in Hlt; lia. }
  unfold JS.of_Z, binary_normalize, binary_round, shl_align.
  fold d. unfold fexp, emin, JS.prec, JS.emax.
  replace (Z.max (d + 0 - 53) (3 - 1024 - 53) - 0) with (d - 53) by lia.
  replace (Z.max (d + 0 - 53) (3 - 1024 - 53)) with (d - 53) by lia.
  destruct (d - 53) as [| q | q] eqn:Hq; try lia.
  - rewrite binary_round_aux_exact.
    + exists p, 0. rewrite Z.pow_0_r.
      replace d with 53 in Hp by lia. repeat split; try lia.
    + replace d with 53 in Hp by lia. lia.
    + lia.
  - assert (Hshift : Z.pos (Pos.iter xO p q) = Z.pos p * 2 ^ Z.pos q)
      by apply Pos_iter_xO.
    assert (Hfull : 2 ^ 52 <= Z.pos (Pos.iter xO p q) < 2 ^ 53).
    { rewrite Hshift.
      assert (H52 : 2 ^ 52 = 2 ^ (d - 1) * 2 ^ Z.pos q).
      { rewrite <- Z.pow_add_r by lia. f_equal. lia. }
      assert (H53 : 2 ^ 53 = 2 ^ d * 2 ^ Z.pos q).
      { rewrite <- Z.pow_add_r by lia. f_equal. lia. }
      assert (0 < 2 ^ Z.pos q) by (apply Z.pow_pos_nonneg; lia).
      rewrite H52, H53. nia. }
    rewrite binary_round_aux_exact by lia.
    exists (Pos.iter xO p q), (Z.pos q).
    repeat split; try lia.
Qed.

Lemma new_location_places (q r N D : Z) :
  0 < D -> 0 <= q -> N = D * q + r -> 0 <= r < D ->
  Notions.places (shr_record_of_loc q (new_location D r)) N D.
Proof.
  intros HD Hq HN Hr. apply places_loc; try lia.
  replace (N - q * D) with r by lia.
  unfold new_location.
  destruct (Z.even D) eqn:Heven; unfold new_location_even, new_location_odd;
    destruct (Z.eqb_spec N (q * D)), (Z.eqb_spec r 0); try lia;
    try reflexivity.
  f_equal.
  assert (Hodd : Z.odd D = true) by (rewrite <- Z.negb_even, Heven; reflexivity).
  apply Z.odd_spec in Hodd. destruct Hodd as [k Hk].
  destruct (Z.compare_spec (2 * r + 1) D), (Z.compare_spec (2 * r) D);
    try reflexivity; lia.
Qed.

(** The quotient of two numbers with full significands is the nearest
    number to the exact quotient. *)
Lemma div_nearest (m1 m2 : positive) (e1 e2 : Z) :
  2 ^ 52 <= Z.pos m1 < 2 ^ 53 -> 2 ^ 52 <= Z.pos m2 < 2 ^ 53 ->
  -1000 <= e1 - e2 <= 1000 ->
  exists (m : positive) (a : Z),
    JS.div (S754_finite false m1 e1) (S754_finite false m2 e2)
    = S754_finite false m (e1 - e2 - 53 + a) /\
    0 <= a <= 2 /\ 2 ^ 52 <= Z.pos m < 2 ^ 53 /\
    - (2 ^ a * Z.pos m2)
    <= 2 * (Z.pos m * (2 ^ a * Z.pos m2) - Z.pos m1 * 2 ^ 53)
    <= 2 ^ a * Z.pos m2.
Proof.
  intros H1 H2 He.
  unfold JS.div, SFdiv, SFdiv_core_binary, Zdigits2.
  rewrite (digits2_pos_unique m1 53), (digits2_pos_unique m2 53) by lia.
  unfold fexp, emin, JS.prec, JS.emax.
  replace (Z.min (Z.max (53 + e1 - (53 + e2) - 53) (3 - 1024 - 53)) (e1 - e2))
    with (e1 - e2 - 53) by lia.
  replace (e1 - e2 - (e1 - e2 - 53)) with 53 by lia.
  rewrite Z.shiftl_mul_pow2 by lia.
  pose proof (Z_div_mod (Z.pos m1 * 2 ^ 53) (Z.pos m2) ltac:(lia)) as Hdiv.
  destruct (Z.div_eucl (Z.pos m1 * 2 ^ 53) (Z.pos m2)) as [q r].
  destruct Hdiv as [HN Hr].
  assert (Hq : 2 ^ 52 <= q < 2 ^ 54) by nia.
  destruct q as [| q | q]; try lia.
  pose proof (digits2_pos_bounds q) as Hdq.
  set (d := Z.pos (digits2_pos q)) in *.
  assert (Hd : 53 <= d <= 54).
  { assert (Hlt1 : 2 ^ 52 < 2 ^ d) by lia.
    assert (Hlt2 : 2 ^ (d - 1) < 2 ^ 54) by lia.
    apply Z.pow_lt_mono_r_iff in Hlt1; [| lia | unfold d; lia].
    apply Z.pow_lt_mono_r_iff in Hlt2; lia. }
  cbn [xorb].
  destruct (binary_round_aux_normal false q (e1 - e2 - 53)
              (new_location (Z.pos m2) r) (Z.pos m1 * 2 ^ 53) (Z.pos m2) d)
    as (m & a & Hround & Ha & Hm & Herr); try reflexivity; try lia.
  - apply new_location_places; lia.
  - exists m, a. rewrite Hround. repeat split; lia.
Qed.

(** The product of two numbers with full significands is the nearest number
    to the exact product. *)
Lemma mul_nearest (m1 m2 : positive) (e1 e2 : Z) :
  2 ^ 52 <= Z.pos m1 < 2 ^ 53 -> 2 ^ 52 <= Z.pos m2 < 2 ^ 53 ->
  -1000 <= e1 + e2 <= 800 ->
  exists (m : positive) (a : Z),
    JS.mul (S754_finite false m1 e1) (S754_finite false m2 e2)
    = S754_finite false m (e1 + e2 + a) /\
    52 <= a <= 54 /\ 2 ^ 52 <= Z.pos m < 2 ^ 53 /\
    - 2 ^ a <= 2 * (Z.pos m * 2 ^ a - Z.pos m1 * Z.pos m2) <= 2 ^ a.
Proof.
  intros H1 H2 He. unfold JS.mul, SFmul, JS.prec, JS.emax. cbn [xorb].
  assert (Hprod : 2 ^ 104 <= Z.pos (m1 * m2) < 2 ^ 106).
  { rewrite Pos2Z.inj_mul. nia. }
  pose proof (digits2_pos_bounds (m1 * m2)) as Hdq.
  set (d := Z.pos (digits2_pos (m1 * m2))) in *.
  assert (Hd : 105 <= d <= 106).
  { assert (Hlt1 : 2 ^ 104 < 2 ^ d) by lia.
    assert (Hlt2 : 2 ^ (d - 1) < 2 ^ 106) by lia.
    apply Z.pow_lt_mono_r_iff in Hlt1; [| lia | unfold d; lia].
    apply Z.pow_lt_mono_r_iff in Hlt2; lia. }
  destruct (binary_round_aux_normal false (m1 * m2) (e1 + e2) loc_Exact
              (Z.pos (m1 * m2)) 1 d)
    as (m & a & Hround & Ha & Hm & Herr); try reflexivity; try lia.
  - apply places_loc; try lia.
    replace (Z.pos (m1 * m2) =? Z.pos (m1 * m2) * 1) with true
      by (symmetry; apply Z.eqb_eq; lia).
    reflexivity.
  - exists m, a. rewrite Hround. rewrite Pos2Z.inj_mul in Herr.
    repeat split; lia.
Qed.

Lemma pow2_pos (k : Z) : 0 <= k -> 0 < 2 ^ k.
Proof. intros Hk. apply Z.pow_pos_nonneg; lia. Qed.

Lemma cancel_bounds (G u v : Z) :
  0 < G -> - (G * u) <= G * v <= G * u -> - u <= v <= u.
Proof.
  intros HG [Hl Hu]. replace (- (G * u)) with (G * - u) in Hl by ring.
  apply Z.mul_le_mono_pos_l in Hl, Hu; lia.
Qed.

Lemma scale_bounds (t u v : Z) :
  0 <= t -> - u <= v <= u -> - (u * t) <= v * t <= u * t.
Proof.
  intros Ht [Hl Hu]. replace (- (u * t)) with (- u * t) by ring.
  split; apply Z.mul_le_mono_nonneg_r; assumption.
Qed.

(** Two integers that enclose the same fraction to within less than one
    step on either side. *)
Lemma floor_near (r E t Y s rho : Z) :
  0 < t -> 0 < Y ->
  0 <= s < 2 * Y -> 0 <= rho < 2 * t ->
  - Y < t * (2 * Y * r + s) - Y * (2 * t * E + rho) < Y ->
  (rho <> 0 -> r = E) /\ (r = E \/ r = E - 1).
Proof.
  intros Ht HY Hs Hrho Hnear.
  assert (HK : 0 < t * Y) by nia.
  assert (Hts : 0 <= t * s <= 2 * (t * Y) - t) by nia.
  assert (HrY : 0 <= rho * Y <= 2 * (t * Y) - Y) by nia.
  assert (Heq : t * (2 * Y * r + s) - Y * (2 * t * E + rho)
                = 2 * (t * Y) * (r - E) + t * s - rho * Y) by ring.
  rewrite Heq in Hnear.
  assert (Hup : r - E < 1) by nia.
  assert (Hlow : -2 < r - E) by nia.
  split; [| lia].
  intros Hne.
  assert (HrY' : Y <= rho * Y) by nia.
  assert (-1 < r - E) by nia.
  lia.
Qed.

Lemma round_percent_exact (c t : Z) :
  0 < c < 2 ^ 44 -> 0 < t < 2 ^ 53 ->
  exists r : Z,
    JS.Math_round (JS.mul (JS.div (JS.of_Z c) (JS.of_Z t)) (JS.of_Z 100)) = JS.of_Z r /\
    ((200 * c + t) mod (2 * t) <> 0 -> r = (200 * c + t) / (2 * t)) /\
    (r = (200 * c + t) / (2 * t) \/ r = (200 * c + t) / (2 * t) - 1).
Proof.
  intros Hc Ht.
  destruct (of_Z_exact c) as (m1 & k1 & Hc1 & Hk1 & Hm1 & Hb1); [lia |].
  destruct (of_Z_exact t) as (m2 & k2 & Ht2 & Hk2 & Hm2 & Hb2); [lia |].
  rewrite Hc1, Ht2.
  destruct (div_nearest m1 m2 (- k1) (- k2))
    as (mq & a & Hq & Ha & Hbq & Herrq); try lia.
  rewrite Hq.
  change (JS.of_Z 100) with (S754_finite false 7036874417766400 (-46)).
  destruct (mul_nearest mq 7036874417766400 (- k1 - - k2 - 53 + a) (-46))
    as (mp & b & Hp & Hb & Hbp & Herrp); try lia.
  rewrite Hp.
  assert (Hb53 : b <= 53).
  { destruct (Z.eq_dec b 54) as [-> |]; [| lia].
    change (2 ^ 54) with 18014398509481984 in Herrp. lia. }
  assert (Hk9 : 9 <= k1).
  { assert (Hlt : 2 ^ 52 < 2 ^ (44 + k1)).
    { rewrite Z.pow_add_r by lia.
      pose proof (pow2_pos k1 ltac:(lia)) as Hpos.
      assert (c * 2 ^ k1 < 2 ^ 44 * 2 ^ k1)
        by (apply Z.mul_lt_mono_pos_r; lia).
      lia. }
    apply Z.pow_lt_mono_r_iff in Hlt; lia. }
  set (ku := k1 - k2 + 53 - a).
  set (kv := ku + 46 - b).
  assert (Hku : 8 <= ku) by (unfold ku; lia).
  assert (Hkv : 1 <= kv) by (unfold kv; lia).
  replace (- k1 - - k2 - 53 + a + -46 + b) with (- kv) by (unfold kv, ku; lia).
  unfold JS.Math_round.
  replace (0 <=? - kv) with false by (symmetry; apply Z.leb_gt; lia).
  cbv zeta. rewrite Z.opp_involutive.
  pose proof (pow2_pos ku ltac:(lia)) as HX.
  pose proof (pow2_pos kv ltac:(lia)) as HY.
  pose proof (pow2_pos b ltac:(lia)) as HA.
  pose proof (pow2_pos (a + k2) ltac:(lia)) as HG.
  assert (F1 : 2 ^ k1 * 2 ^ 53 = 2 ^ ku * 2 ^ (a + k2)).
  { rewrite <- !Z.pow_add_r by lia. f_equal. unfold ku. lia. }
  assert (F2 : 2 ^ a * 2 ^ k2 = 2 ^ (a + k2)).
  { rewrite <- !Z.pow_add_r by lia. reflexivity. }
  assert (F3 : 2 ^ ku * 2 ^ 46 = 2 ^ kv * 2 ^ b).
  { rewrite <- !Z.pow_add_r by lia. f_equal. unfold kv. lia. }
  assert (F4 : 2 ^ b <= 2 ^ 53) by (apply Z.pow_le_mono_r; lia).
  set (X := 2 ^ ku) in *. set (Y := 2 ^ kv) in *.
  set (A := 2 ^ b) in *. set (G := 2 ^ (a + k2)) in *.
  (* the quotient against the exact quotient *)
  assert (R1 : - t <= 2 * (Z.pos mq * t - c * X) <= t).
  { rewrite Hm1, Hm2 in Herrq.
    replace (2 ^ a * (t * 2 ^ k2)) with (G * t) in Herrq
      by (rewrite <- F2; ring).
    replace (c * 2 ^ k1 * 2 ^ 53) with (G * (c * X)) in Herrq
      by (transitivity (c * (2 ^ k1 * 2 ^ 53)); [rewrite F1 |]; ring).
    apply (cancel_bounds G); [exact HG |].
    replace (G * (2 * (Z.pos mq * t - c * X)))
      with (2 * (Z.pos mq * (G * t) - G * (c * X))) by ring.
    exact Herrq. }
  (* the product against the exact product *)
  assert (R2 : - (A * t)
               <= 2 * (Z.pos mp * A * t) - 2 * (7036874417766400 * (Z.pos mq * t))
               <= A * t).
  { replace (2 * (Z.pos mp * A * t) - 2 * (7036874417766400 * (Z.pos mq * t)))
      with (2 * (Z.pos mp * A - Z.pos mq * 7036874417766400) * t) by ring.
    apply scale_bounds; [lia | exact Herrp]. }
  assert (R3 : 2 ^ 53 * t <= 2 * (Z.pos mq * t)).
  { assert (2 ^ 52 * t <= Z.pos mq * t)
      by (apply Z.mul_le_mono_nonneg_r; lia).
    lia. }
  assert (R4 : c * X <= (2 ^ 44 - 1) * X)
    by (apply Z.mul_le_mono_nonneg_r; lia).
  assert (R5 : A * t <= 2 ^ 53 * t)
    by (apply Z.mul_le_mono_nonneg_r; lia).
  assert (R6 : 228 * t < X) by lia.
  assert (R7 : 7036874417766400 = 100 * 2 ^ 46) by reflexivity.
  assert (R8 : - (Y * A) < (2 * (Z.pos mp * t) - 200 * (c * Y)) * A < Y * A).
  { replace ((2 * (Z.pos mp * t) - 200 * (c * Y)) * A)
      with (2 * (Z.pos mp * A * t) - 200 * (c * (Y * A))) by ring.
    rewrite <- F3.
    replace (200 * (c * (X * 2 ^ 46))) with (2 * (100 * 2 ^ 46) * (c * X))
      by ring.
    lia. }
  assert (R9 : - Y < 2 * (Z.pos mp * t) - 200 * (c * Y) < Y).
  { replace (- (Y * A)) with (- Y * A) in R8 by ring.
    destruct R8 as [R8l R8u].
    apply Z.mul_lt_mono_pos_r in R8l; [| lia].
    apply Z.mul_lt_mono_pos_r in R8u; [| lia].
    lia. }
  set (r := (2 * Z.pos mp + Y) / (2 * Y)).
  exists r. split.
  { destruct (Z.eqb_spec r 0) as [-> |]; reflexivity. }
  pose proof (Z.div_mod (2 * Z.pos mp + Y) (2 * Y) ltac:(lia)) as Hr.
  pose proof (Z.mod_pos_bound (2 * Z.pos mp + Y) (2 * Y) ltac:(lia)) as Hs.
  pose proof (Z.div_mod (200 * c + t) (2 * t) ltac:(lia)) as HE.
  pose proof (Z.mod_pos_bound (200 * c + t) (2 * t) ltac:(lia)) as Hrho.
  fold r in Hr.
  apply (floor_near r ((200 * c + t) / (2 * t)) t Y
           ((2 * Z.pos mp + Y) mod (2 * Y)) ((200 * c + t) mod (2 * t)));
    lia.
Qed.

End Rounding.

(** The percentage of a count out of a positive total. *)
Lemma percentage_of_count (count total : Z) :
  0 <= count < 2 ^ 44 -> 0 < total < 2 ^ 53 ->
  (Notions.halfway count total = false ->
   Notions.percentage_of count (Analytics.Count total)
   = JS.of_Z (Notions.exact_percentage count total))
  /\ (Notions.percentage_of count (Analytics.Count total)
      = JS.of_Z (Notions.exact_percentage count total)
      \/ Notions.percentage_of count (Analytics.Count total)
         = JS.of_Z (Notions.exact_percentage count total - 1)).
Proof.
  intros Hc Ht.
  unfold Notions.percentage_of, Notions.exact_percentage, Notions.halfway,
    Analytics.count_number.
  destruct (Z.eq_dec count 0) as [-> | Hpos].
  - destruct (of_Z_exact total Ht) as (m & k & -> & _).
    replace ((200 * 0 + total) / (2 * total)) with 0
      by (symmetry; apply Z.div_small; lia).
    split; [intros _ |]; [| left]; reflexivity.
  - destruct (round_percent_exact count total ltac:(lia) Ht)
      as (r & -> & Hexact & Hnear).
    split.
    + intros Hhalf. apply Z.eqb_neq in Hhalf. rewrite (Hexact Hhalf). reflexivity.
    + destruct Hnear as [-> | ->]; [left | right]; reflexivity.
Qed.

(** With no interactions at all the quotient is an infinity or NaN, and so
    is the percentage. *)
Lemma percentage_of_zero_total (count : Z) (total : Analytics.count_member) :
  total = Analytics.Count 0 \/ total = Analytics.Null ->
  (0 < count < 2 ^ 53 -> Notions.percentage_of count total = JS.Infinity)
  /\ (count = 0 -> Notions.percentage_of count total = JS.NaN).
Proof.
  intros Htotal.
  assert (Hzero : Analytics.count_number total = S754_zero false)
    by (destruct Htotal as [-> | ->]; reflexivity).
  unfold Notions.percentage_of. rewrite Hzero. split.
  - intros Hc. destruct (of_Z_exact count Hc) as (m & k & -> & _). reflexivity.
  - intros ->. reflexivity.
Qed.

Lemma percentage_of_absent_total (count : Z) :
  Notions.percentage_of count Analytics.Absent = JS.NaN.
Proof.
  unfold Notions.percentage_of, Analytics.count_number.
  destruct (JS.of_Z count); reflexivity.
Qed.

Lemma processIntentData_rows (a : Analytics.rollup) (dist : list (string * Z)) :
  Analytics.intent_distribution a = Some dist ->
  Analytics.processIntentData (Some a) =
    Analytics.sort (fun r1 r2 => Analytics.value r2 - Analytics.value r1 >? 0)
      (map (Notions.intent_row_of (Analytics.total_interactions a)) dist).
Proof.
  intros H. unfold Analytics.processIntentData. rewrite H. f_equal.
  apply map_ext. intros [intent count]. reflexivity.
Qed.

(** C10, as the code has it.  The rows of [processIntentData] are the
    entries of the intent distribution, each under its title and with its
    count, arranged in descending order of count.  With a total from 1 to
    below 2^53 and a count from 0 to below 2^44, the percentage of a row is
    [100 * count / total] rounded to the nearest integer unless that value
    lies exactly halfway between two integers, and then it is that integer
    or the one below.  With a total of 0 or [null] the percentage is
    Infinity for a positive count and NaN for the count 0; without a total
    it is NaN. *)
Theorem intent_rows_sorted_with_percentages (a : Analytics.rollup)
    (dist : list (string * Z)) :
  Analytics.intent_distribution a = Some dist ->
  let rows := Analytics.processIntentData (Some a) in
  Permutation (map (fun r => (Analytics.name r, Analytics.value r)) rows)
              (map (fun entry => (Analytics.title (fst entry), snd entry)) dist)
  /\ StronglySorted (fun r1 r2 => Analytics.value r1 >= Analytics.value r2) rows
  /\ (forall total,
        Analytics.total_interactions a = Analytics.Count total ->
        0 < total < 2 ^ 53 ->
        forall r, In r rows -> 0 <= Analytics.value r < 2 ^ 44 ->
          (Notions.halfway (Analytics.value r) total = false ->
           Analytics.percentage r
           = JS.of_Z (Notions.exact_percentage (Analytics.value r) total))
          /\ (Analytics.percentage r
                = JS.of_Z (Notions.exact_percentage (Analytics.value r) total)
              \/ Analytics.percentage r
                = JS.of_Z (Notions.exact_percentage (Analytics.value r) total - 1)))
  /\ (Analytics.total_interactions a = Analytics.Count 0
      \/ Analytics.total_interactions a = Analytics.Null ->
      forall r, In r rows ->
        (0 < Analytics.value r < 2 ^ 53 -> Analytics.percentage r = JS.Infinity)
        /\ (Analytics.value r = 0 -> Analytics.percentage r = JS.NaN))
  /\ (Analytics.total_interactions a = Analytics.Absent ->
      forall r, In r rows -> Analytics.percentage r = JS.NaN).
Proof.
  intros Hdist rows. subst rows. rewrite (processIntentData_rows a dist Hdist).
  pose proof (sort_permutation
                (fun r1 r2 => Analytics.value r2 - Analytics.value r1 >? 0)
                (map (Notions.intent_row_of (Analytics.total_interactions a)) dist))
    as Hperm.
  assert (Hrow : forall r,
             In r (Analytics.sort
                     (fun r1 r2 => Analytics.value r2 - Analytics.value r1 >? 0)
                     (map (Notions.intent_row_of (Analytics.total_interactions a)) dist)) ->
             Analytics.percentage r =
               Notions.percentage_of (Analytics.value r) (Analytics.total_interactions a)).
  { intros r Hr. apply (Permutation_in _ Hperm) in Hr.
    apply in_map_iff in Hr as [entry [<- _]]. reflexivity. }
  split; [| split; [apply sort_descending | split; [| split]]].
  - apply (Permutation_map (fun r => (Analytics.name r, Analytics.value r))) in Hperm.
    rewrite map_map in Hperm. exact Hperm.
  - intros total Ht Hrange r Hr Hcount.
    rewrite (Hrow r Hr), Ht. apply percentage_of_count; assumption.
  - intros Ht r Hr. rewrite (Hrow r Hr).
    apply percentage_of_zero_total. exact Ht.
  - intros Ht r Hr. rewrite (Hrow r Hr), Ht. apply percentage_of_absent_total.
Qed.

(** C10 fails as stated: 23 interactions out of 40 are 57.5 percent, which
    rounds to 58, but the dashboard shows 57. *)
Lemma percentage_below_exact :
  exists r,
    In r (Analytics.processIntentData (Some Samples.week))
    /\ Analytics.total_interactions Samples.week = Analytics.Count 40
    /\ Analytics.value r = 23
    /\ Notions.exact_percentage 23 40 = 58
    /\ Notions.halfway 23 40 = true
    /\ Analytics.percentage r = JS.of_Z 57
    /\ Analytics.percentage r
         <> JS.of_Z (Notions.exact_percentage (Analytics.value r) 40).
Proof.
  eexists. split; [left; reflexivity |]. cbn [Analytics.value Analytics.percentage].
  repeat split; try reflexivity.
  vm_compute. discriminate.
Qed.

(** The range of the counts cannot be much larger: a count between 2^44
    and 2^45 already has a percentage that is off by one without lying
    halfway. *)
Lemma percentage_past_range :
  Notions.halfway 27571116807637 10624707825679 = false
  /\ Notions.exact_percentage 27571116807637 10624707825679 = 259
  /\ Notions.percentage_of 27571116807637 (Analytics.Count 10624707825679)
     = JS.of_Z 260.
Proof. vm_compute. repeat split. Qed.

Lemma intent_rows_sorted_with_percentages_witness :
  Analytics.intent_distribution Samples.week
    = Some [("greeting", 7); ("tuition_fees", 23); ("unknown", 10)]
  /\ StronglySorted (fun r1 r2 => Analytics.value r1 >= Analytics.value r2)
       (Analytics.processIntentData (Some Samples.week))
  /\ (forall r, In r (Analytics.processIntentData (Some Samples.week)) ->
        Analytics.value r = 10 -> Analytics.percentage r = JS.of_Z 25).
Proof.
  split; [reflexivity |].
  pose proof (intent_rows_sorted_with_percentages Samples.week _ eq_refl) as H.
  cbv zeta in H. destruct H as (_ & Hsorted & Hpct & _).
  split; [exact Hsorted |].
  intros r Hr Hv.
  destruct (Hpct 40 eq_refl ltac:(lia) r Hr ltac:(lia)) as [Hexact _].
  rewrite Hv in Hexact. exact (Hexact eq_refl).
Defined.

(** C9, as the code has it.  For a time range [n >= 1]: when the rollup has
    no [daily_interactions] member, [processDailyData] returns no entry;
    when it has one, it returns exactly [n] entries, the [k]-th (from 0) for
    the day [n - 1 - k] days before today, so from [n - 1] days ago to today
    in chronological order, each with the count recorded under that day's
    yyyy-MM-dd key, or 0 when there is none. *)
Theorem daily_rows_per_day (Date : Type) (subDays : Date -> Z -> Date)
    (format : Date -> string -> string) (now : Date)
    (st : Analytics.state) (a : Analytics.rollup) (n : Z) :
  Analytics.analyticsData st = Some a ->
  Analytics.timeRange st = n ->
  1 <= n ->
  let rows := Analytics.processDailyData Date subDays format now st in
  match Analytics.daily_interactions a with
  | None => rows = []
  | Some daily =>
      Z.of_nat (List.length rows) = n
      /\ forall k, 0 <= k < n ->
           nth_error rows (Z.to_nat k) =
             Some {| Analytics.date := format (subDays now (n - 1 - k)) "MMM dd";
                     Analytics.interactions :=
                       Notions.recorded (format (subDays now (n - 1 - k)) "yyyy-MM-dd")
                                        daily |}
  end.
Proof.
  intros Ha Hn Hpos rows. subst rows. unfold Analytics.processDailyData.
  rewrite Ha, Hn.
  destruct (Analytics.daily_interactions a) as [daily |]; [| reflexivity].
  split.
  - rewrite daily_loop_length. lia.
  - intros k Hk. rewrite daily_loop_nth by lia.
    rewrite daily_entry_recorded.
    replace (Z.of_nat (Z.to_nat n - 1 - Z.to_nat k)) with (n - 1 - k) by lia.
    reflexivity.
Qed.

(** C9 fails as stated: with a rollup that has no [daily_interactions]
    member and the time range 7, [processDailyData] returns no entry
    instead of 7. *)
Lemma daily_rows_missing_member :
  Analytics.timeRange (Samples.loaded Samples.week_without_days) = 7
  /\ Analytics.processDailyData Z Calendar.subDays Calendar.format Samples.today
       (Samples.loaded Samples.week_without_days) = []
  /\ List.length
       (Analytics.processDailyData Z Calendar.subDays Calendar.format Samples.today
          (Samples.loaded Samples.week_without_days)) <> 7%nat.
Proof. repeat split; try reflexivity. cbn. discriminate. Qed.

Lemma daily_rows_per_day_witness :
  Analytics.analyticsData (Samples.loaded Samples.week) = Some Samples.week
  /\ Analytics.timeRange (Samples.loaded Samples.week) = 7
  /\ 1 <= 7
  /\ nth_error
       (Analytics.processDailyData Z Calendar.subDays Calendar.format Samples.today
          (Samples.loaded Samples.week)) 4
     = Some {| Analytics.date := "Oct 31"; Analytics.interactions := 15 |}.
Proof.
  split; [reflexivity |]. split; [reflexivity |]. split; [lia |].
  pose proof (daily_rows_per_day Z Calendar.subDays Calendar.format Samples.today
                (Samples.loaded Samples.week) Samples.week 7
                eq_refl eq_refl ltac:(lia)) as H.
  cbv zeta in H. cbn [Analytics.daily_interactions Samples.week] in H.
  destruct H as [_ H]. specialize (H 4 ltac:(lia)).
  exact H.
Defined.


Section Slices.
Context {A : Type} (R : A -> A -> Prop).


End Slices.






(** ** The statements at the sample data *)

Lemma chat_turn_contract_witness :
  ChatInterface.send_disabled Samples.online Samples.typed = false
  /\ exists userMessage botMessage,
       ChatInterface.messages Samples.after_reply =
         ChatInterface.messages Samples.typed ++ [userMessage; botMessage]
       /\ ChatInterface.content botMessage
          = JS.VStr "Applicants need a completed application and transcripts."
       /\ ChatInterface.intent botMessage = JS.VStr "admission_requirements"
       /\ ChatInterface.confidence botMessage = JS.VNum (JS.of_Z 1).
Proof.
  split; [reflexivity |].
  destruct (chat_turn_contract Samples.online Samples.typed
              1700000001000 1700000002000 (Samples.replied Samples.chat_reply) eq_refl)
    as [_ H].
  destruct (H Samples.chat_reply _ _ _ eq_refl eq_refl eq_refl eq_refl)
    as (userMessage & botMessage & Hm & _ & _ & _ & Hc & Hi & Hcf).
  exists userMessage, botMessage. repeat split; assumption.
Defined.


Lemma health_check_gates_chat_witness :
  Notions.reported_ready false
    [Client.HealthCheck Samples.unavailable; Client.ChatInput "Hello"] = false
  /\ let w := fst (Client.run (Client.start 1700000000000 "0.k3j9x2m1qzz")
                     [Client.HealthCheck Samples.unavailable; Client.ChatInput "Hello"]) in
     Client.step w (Client.ChatSend 1700000001000 (Samples.replied Samples.chat_reply)
                      1700000002000) = (w, []).
Proof.
  split; [reflexivity |].
  exact (proj2 (proj2 (proj2
           (health_check_gates_chat 1700000000000 "0.k3j9x2m1qzz"
              [Client.HealthCheck Samples.unavailable; Client.ChatInput "Hello"]
              1700000001000 1700000002000 (Samples.replied Samples.chat_reply)
              eq_refl)))).
Defined.

Lemma chat_failure_answered_witness :
  ChatInterface.send_disabled Samples.online Samples.typed = false
  /\ (exists r, Samples.unavailable = Net.Resolved r /\ Net.ok r = false)
  /\ let out := ChatInterface.sendMessage Samples.online Samples.typed
                  1700000001000 Samples.unavailable 1700000002000 in
     ChatInterface.isLoading (ChatInterface.final out) = false
     /\ ChatInterface.isTyping (ChatInterface.final out) = false
     /\ ChatInterface.uncaught out = None.
Proof.
  split; [reflexivity |]. split; [eexists; split; reflexivity |].
  destruct (chat_failure_answered Samples.online Samples.typed
              1700000001000 1700000002000 Samples.unavailable eq_refl
              (or_intror (ex_intro _ _ (conj eq_refl eq_refl))))
    as (reply & _ & _ & _ & _ & Hl & Ht & Hu).
  repeat split; assumption.
Defined.

Lemma feedback_contract_witness :
  nth_error (ChatInterface.actions Samples.after_reply) 4
    = Some (ChatInterface.Feedback "1700000002001" "positive")
  /\ ChatInterface.final
       (ChatInterface.sendFeedback Samples.online "1700000002001" "positive"
          Samples.unavailable Samples.after_reply)
     = Samples.after_reply.
Proof.
  split; [reflexivity |].
  exact (proj1 (proj2 (proj2 (proj2
           (feedback_contract Samples.online Samples.after_reply 4
              "1700000002001" "positive" Samples.unavailable eq_refl))))).
Defined.


Lemma followup_validated_witness :
  Net.requests (ChatInterface.sendFollowUp "session_1700000000000_k3j9x2m1q"
                  "" "Ada" Samples.unavailable) = []
  /\ exists req,
       Net.requests (ChatInterface.sendFollowUp "session_1700000000000_k3j9x2m1q"
                       "ada@example.org" "Ada" Samples.unavailable) = [req]
       /\ Net.body_keys req = ["email"; "name"; "session_id"; "inquiry_type"].
Proof.
  split.
  - exact (proj1 (followup_validated _ "" "Ada" Samples.unavailable)
             (or_introl eq_refl)).
  - destruct (proj2 (followup_validated "session_1700000000000_k3j9x2m1q"
                       "ada@example.org" "Ada" Samples.unavailable)
                ltac:(discriminate) ltac:(discriminate))
      as (req & Hreq & _ & _ & Hkeys & _).
    exists req. split; assumption.
Defined.


(* ------------------------------------------------------------------ *)
(** * Further properties *)

(** ** Trimming *)

Section Trimming.
Import JS Notions.

Lemma append_empty_r (s : string) : s +++ "" = s.
Proof. induction s as [| c s IH]; cbn; [reflexivity | rewrite IH; reflexivity]. Qed.

Lemma append_assoc (a b c : string) : (a +++ b) +++ c = a +++ (b +++ c).
Proof. induction a as [| x a IH]; cbn; [reflexivity | rewrite IH; reflexivity]. Qed.

Lemma string_rev_append (a b : string) :
  string_rev (a +++ b) = string_rev b +++ string_rev a.
Proof.
  induction a as [| x a IH]; cbn.
  - rewrite append_empty_r. reflexivity.
  - rewrite IH, append_assoc. reflexivity.
Qed.

Lemma string_rev_involutive (s : string) : string_rev (string_rev s) = s.
Proof.
  induction s as [| c s IH]; cbn; [reflexivity |].
  rewrite string_rev_append, IH. reflexivity.
Qed.

Lemma blank_append (a b : string) : blank (a +++ b) = blank a && blank b.
Proof.
  induction a as [| c a IH]; cbn; [reflexivity |].
  rewrite IH, andb_assoc. reflexivity.
Qed.

Lemma blank_rev (s : string) : blank (string_rev s) = blank s.
Proof.
  induction s as [| c s IH]; cbn; [reflexivity |].
  rewrite blank_append, IH. cbn. rewrite andb_true_r, andb_comm. reflexivity.
Qed.

(** [trim_start] drops a blank prefix and stops at a character that is not
    white space. *)
Lemma trim_start_split (s : string) :
  exists l, s = l +++ trim_start s /\ blank l = true.
Proof.
  induction s as [| c s IH]; cbn.
  - exists "". split; reflexivity.
  - destruct (is_white_space c) eqn:Hc.
    + destruct IH as (l & Hs & Hl). exists (String c l). cbn.
      rewrite <- Hs, Hc, Hl. split; reflexivity.
    + exists "". split; reflexivity.
Qed.

Lemma trim_start_head (s : string) : starts_with_space (trim_start s) = false.
Proof.
  induction s as [| c s IH]; cbn; [reflexivity |].
  destruct (is_white_space c) eqn:Hc; [exact IH | cbn; exact Hc].
Qed.

Lemma trim_start_fixed (s : string) : starts_with_space s = false -> trim_start s = s.
Proof. destruct s as [| c s]; cbn; [reflexivity | intros ->; reflexivity]. Qed.

Lemma trim_end_split (s : string) :
  exists r, s = trim_end s +++ r /\ blank r = true.
Proof.
  unfold trim_end.
  destruct (trim_start_split (string_rev s)) as (l & Hs & Hl).
  exists (string_rev l). split.
  - rewrite <- string_rev_append, <- Hs, string_rev_involutive. reflexivity.
  - rewrite blank_rev. exact Hl.
Qed.

Lemma trim_end_last (s : string) : ends_with_space (trim_end s) = false.
Proof.
  unfold ends_with_space, trim_end. rewrite string_rev_involutive.
  apply trim_start_head.
Qed.

Lemma trim_end_fixed (s : string) : ends_with_space s = false -> trim_end s = s.
Proof.
  unfold ends_with_space, trim_end. intros H.
  rewrite (trim_start_fixed _ H). apply string_rev_involutive.
Qed.

Lemma starts_with_space_prefix (a b : string) :
  starts_with_space (a +++ b) = false -> starts_with_space a = false.
Proof. destruct a as [| c a]; cbn; [reflexivity | intros H; exact H]. Qed.

(** What [trim] returns: the input without a blank prefix and a blank
    suffix, with no white space left at either end. *)
Lemma trim_split (s : string) :
  exists l r,
    s = l +++ trim s +++ r
    /\ blank l = true /\ blank r = true
    /\ starts_with_space (trim s) = false
    /\ ends_with_space (trim s) = false.
Proof.
  unfold trim.
  destruct (trim_start_split s) as (l & Hs & Hl).
  destruct (trim_end_split (trim_start s)) as (r & Hm & Hr).
  exists l, r. split; [rewrite <- Hm; exact Hs |].
  split; [exact Hl |]. split; [exact Hr |]. split.
  - apply (starts_with_space_prefix _ r). rewrite <- Hm. apply trim_start_head.
  - apply trim_end_last.
Qed.

Lemma trim_idempotent (s : string) : trim (trim s) = trim s.
Proof.
  destruct (trim_split s) as (l & r & _ & _ & _ & Hhead & Hlast).
  unfold trim at 1. rewrite (trim_start_fixed _ Hhead).
  apply trim_end_fixed. exact Hlast.
Qed.

Lemma trim_blank (s : string) : blank s = true -> trim s = "".
Proof.
  intros H. unfold trim.
  assert (Hstart : trim_start s = "").
  { induction s as [| c s IH]; cbn in *; [reflexivity |].
    apply andb_prop in H as [Hc Hs]. rewrite Hc. apply IH. exact Hs. }
  rewrite Hstart. reflexivity.
Qed.

End Trimming.

(** X1.  The chat never posts white space for a message.  When the input
    is blank the send is refused outright; when a turn is sent, the posted
    [message] is the input without its blank prefix and blank suffix: it is
    not empty and neither starts nor ends with white space. *)
Theorem posted_message_trimmed (p : ChatInterface.props) (st : ChatInterface.state)
    (t0 t1 : Z) (o : Net.fetch_outcome) :
  let out := ChatInterface.sendMessage p st t0 o t1 in
  (Notions.blank (ChatInterface.inputText st) = true ->
   out = {| ChatInterface.final := st; ChatInterface.effects := [];
            ChatInterface.uncaught := None |})
  /\ (forall req, In req (Net.requests (ChatInterface.effects out)) ->
        exists l m r,
          ChatInterface.inputText st = l +++ m +++ r
          /\ Notions.blank l = true /\ Notions.blank r = true
          /\ Net.req_body req =
               Net.JsonBody [("message", JS.VStr m);
                             ("session_id", JS.VStr (ChatInterface.sessionId p))]
          /\ m <> ""
          /\ Notions.starts_with_space m = false
          /\ Notions.ends_with_space m = false).
Proof.
  intros out. subst out. split.
  - intros Hblank. apply sendMessage_blocked.
    unfold ChatInterface.send_disabled. rewrite (trim_blank _ Hblank). reflexivity.
  - intros req Hreq. rewrite requests_sendMessage in Hreq.
    destruct (ChatInterface.send_disabled p st) eqn:Hd; [contradiction |].
    destruct Hreq as [<- | []].
    destruct (trim_split (ChatInterface.inputText st))
      as (l & r & Hs & Hl & Hr & Hhead & Hlast).
    exists l, (JS.trim (ChatInterface.inputText st)), r.
    split; [exact Hs |]. split; [exact Hl |]. split; [exact Hr |].
    split; [reflexivity |]. split; [apply (sent_not_blank p st Hd) |].
    split; assumption.
Qed.

Lemma posted_message_trimmed_witness :
  exists l r,
    ChatInterface.inputText Samples.typed
      = l +++ "What are the admission requirements?" +++ r
    /\ Notions.blank l = true /\ Notions.blank r = true.
Proof.
  destruct (proj2 (posted_message_trimmed Samples.online Samples.typed
                     1700000001000 1700000002000 Samples.unavailable)
              (ChatInterface.chat_request Samples.online
                 (Notions.userMessage_at Samples.typed 1700000001000))
              (or_introl eq_refl))
    as (l & m & r & Hs & Hl & Hr & Hbody & _).
  exists l, r. injection Hbody as <-.
  split; [exact Hs |]. split; assumption.
Defined.

(** ** Retrying, locking and clearing the chat *)

Section ChatRecovery.
Import JS Net ChatInterface Notions.

Lemma actions_from_app (l1 l2 : list message) :
  forall index,
    actions_from index (l1 ++ l2) =
      actions_from index l1 ++ actions_from (index + List.length l1) l2.
Proof.
  induction l1 as [| m l1 IH]; intros index; cbn.
  - rewrite Nat.add_0_r. reflexivity.
  - rewrite IH, app_assoc, Nat.add_succ_r. reflexivity.
Qed.

Lemma send_enabled_parts (p : props) (st : state) :
  send_disabled p st = false ->
  truthy (VStr (trim (inputText st))) = true
  /\ isLoading st = false /\ isConnected p = true.
Proof.
  unfold send_disabled. intros H.
  apply orb_false_elim in H as [H Hc]. apply orb_false_elim in H as [Ht Hl].
  apply negb_false_iff in Ht, Hc. auto.
Qed.

(** The state a failed turn leaves. *)
Lemma sendMessage_failed_state (p : props) (st : state) (t0 t1 : Z)
    (o : fetch_outcome) :
  send_disabled p st = false ->
  o = Rejected \/ (exists r, o = Resolved r /\ ok r = false) ->
  final (sendMessage p st t0 o t1) =
    {| messages := messages st ++ [userMessage_at st t0; errorMessage t1];
       inputText := ""; isLoading := false; isTyping := false |}.
Proof.
  intros Hd Hfail. destruct (await_json_failure o Hfail) as [e He].
  unfold sendMessage. rewrite sendMessage_begin_sent by exact Hd.
  rewrite (sendMessage_settle_failure _ o e t1 He). cbn.
  rewrite <- app_assoc. reflexivity.
Qed.

(** Every turn only appends to the conversation. *)
Lemma sendMessage_extends (p : props) (st : state) (t0 t1 : Z) (o : fetch_outcome) :
  exists added, messages (final (sendMessage p st t0 o t1)) = messages st ++ added.
Proof.
  destruct (send_disabled p st) eqn:Hd.
  - rewrite sendMessage_blocked by exact Hd. exists []. cbn.
    rewrite app_nil_r. reflexivity.
  - unfold sendMessage. rewrite sendMessage_begin_sent by exact Hd.
    unfold sendMessage_settle, sendMessage_catch, sendMessage_timeout.
    destruct (await_json o) as [e | data].
    + eexists. cbn. rewrite <- app_assoc. reflexivity.
    + destruct (get data "response"), (get data "intent"), (get data "confidence");
        cbn; eexists; rewrite <- ?app_assoc; reflexivity.
Qed.

End ChatRecovery.

(** X2.  After a failed turn a Retry button is rendered under the error
    message.  Clicking it removes the error message only, keeps the user
    message and puts its text back into the input box; sending again posts
    the same request as the failed turn and adds the user message to the
    conversation a second time. *)
Theorem retry_after_failure (p : ChatInterface.props) (st : ChatInterface.state)
    (t0 t1 : Z) (o : Net.fetch_outcome) :
  ChatInterface.send_disabled p st = false ->
  o = Net.Rejected \/ (exists r, o = Net.Resolved r /\ Net.ok r = false) ->
  let failed := ChatInterface.final (ChatInterface.sendMessage p st t0 o t1) in
  let index := S (List.length (ChatInterface.messages st)) in
  let retried := ChatInterface.retryMessage index failed in
  In (ChatInterface.Retry index) (ChatInterface.actions failed)
  /\ retried =
       {| ChatInterface.messages :=
            ChatInterface.messages st ++ [Notions.userMessage_at st t0];
          ChatInterface.inputText := JS.trim (ChatInterface.inputText st);
          ChatInterface.isLoading := false;
          ChatInterface.isTyping := false |}
  /\ ChatInterface.send_disabled p retried = false
  /\ forall t2 o' t3,
       let again := ChatInterface.sendMessage p retried t2 o' t3 in
       Net.requests (ChatInterface.effects again)
       = Net.requests (ChatInterface.effects (ChatInterface.sendMessage p st t0 o t1))
       /\ exists second added,
            ChatInterface.messages (ChatInterface.final again) =
              ChatInterface.messages st
              ++ [Notions.userMessage_at st t0; second] ++ added
            /\ ChatInterface.type second = ChatInterface.user
            /\ ChatInterface.content second
               = ChatInterface.content (Notions.userMessage_at st t0).
Proof.
  intros Hd Hfail failed index retried.
  pose proof (sendMessage_failed_state p st t0 t1 o Hd Hfail) as Hfailed.
  fold failed in Hfailed.
  destruct (send_enabled_parts p st Hd) as (Htext & _ & Hconn).
  assert (Hretried : retried =
            {| ChatInterface.messages :=
                 ChatInterface.messages st ++ [Notions.userMessage_at st t0];
               ChatInterface.inputText := JS.trim (ChatInterface.inputText st);
               ChatInterface.isLoading := false;
               ChatInterface.isTyping := false |}).
  { subst retried index. rewrite Hfailed. unfold ChatInterface.retryMessage.
    cbn [ChatInterface.messages].
    rewrite nth_error_app2 by lia. rewrite Nat.sub_diag.
    cbn [nth_error Notions.userMessage_at ChatInterface.type ChatInterface.content].
    unfold ChatInterface.setMessages, ChatInterface.setInputText.
    cbn [ChatInterface.messages ChatInterface.inputText ChatInterface.isLoading
         ChatInterface.isTyping].
    f_equal. rewrite firstn_app, firstn_all2 by lia.
    replace (S (List.length (ChatInterface.messages st))
             - List.length (ChatInterface.messages st))%nat with 1%nat by lia.
    reflexivity. }
  split; [| split; [exact Hretried |]].
  - subst index. rewrite Hfailed. unfold ChatInterface.actions.
    cbn [ChatInterface.messages]. rewrite actions_from_app.
    apply in_or_app. right. cbn. left. reflexivity.
  - assert (Hd2 : ChatInterface.send_disabled p retried = false).
    { rewrite Hretried. unfold ChatInterface.send_disabled.
      cbn [ChatInterface.inputText ChatInterface.isLoading].
      rewrite trim_idempotent, Htext, Hconn. reflexivity. }
    assert (Hc : forall t2,
               ChatInterface.content (Notions.userMessage_at retried t2)
               = ChatInterface.content (Notions.userMessage_at st t0)).
    { intros t2. rewrite Hretried. unfold Notions.userMessage_at.
      cbn [ChatInterface.content ChatInterface.inputText].
      rewrite trim_idempotent. reflexivity. }
    split; [exact Hd2 |].
    intros t2 o' t3 again. subst again. split.
    + rewrite !requests_sendMessage, Hd, Hd2.
      unfold ChatInterface.chat_request. rewrite (Hc t2). reflexivity.
    + unfold ChatInterface.sendMessage.
      rewrite sendMessage_begin_sent by exact Hd2.
      cbn [ChatInterface.final].
      exists (Notions.userMessage_at retried t2).
      assert (Hgrow : exists added,
                 ChatInterface.messages
                   (ChatInterface.final
                      (ChatInterface.sendMessage_settle
                         {| ChatInterface.messages :=
                              ChatInterface.messages retried
                              ++ [Notions.userMessage_at retried t2];
                            ChatInterface.inputText := "";
                            ChatInterface.isLoading := true;
                            ChatInterface.isTyping := true |} o' t3))
                 = (ChatInterface.messages retried
                    ++ [Notions.userMessage_at retried t2]) ++ added).
      { unfold ChatInterface.sendMessage_settle, ChatInterface.sendMessage_catch,
          ChatInterface.sendMessage_timeout.
        destruct (Net.await_json o') as [e | data].
        - eexists. reflexivity.
        - destruct (JS.get data "response"), (JS.get data "intent"),
            (JS.get data "confidence");
            try (exists []; cbn [ChatInterface.final ChatInterface.messages];
                 rewrite app_nil_r; reflexivity).
          eexists. reflexivity. }
      destruct Hgrow as [added Hgrow]. exists added.
      split; [| split; [reflexivity | apply Hc]].
      rewrite Hgrow. rewrite Hretried at 1. cbn [ChatInterface.messages].
      rewrite <- !app_assoc. reflexivity.
Qed.

Lemma retry_after_failure_witness :
  ChatInterface.send_disabled Samples.online Samples.typed = false
  /\ ChatInterface.retryMessage 2 Samples.after_failure =
       {| ChatInterface.messages :=
            ChatInterface.messages Samples.typed
            ++ [Notions.userMessage_at Samples.typed 1700000001000];
          ChatInterface.inputText := "What are the admission requirements?";
          ChatInterface.isLoading := false;
          ChatInterface.isTyping := false |}.
Proof.
  split; [reflexivity |].
  exact (proj1 (proj2 (retry_after_failure Samples.online Samples.typed
                         1700000001000 1700000002000 Net.Rejected eq_refl
                         (or_introl eq_refl)))).
Defined.

(** X3.  A reply whose body is the JSON value [null] locks the chat: the
    timer callback throws on [data.response] outside the [try], so no bot
    message is added, [isLoading] and [isTyping] stay true, the input box
    stays disabled and every later send is refused without a request,
    whatever the connection and whatever text reaches the input box. *)
Theorem null_reply_locks_chat (p : ChatInterface.props) (st : ChatInterface.state)
    (t0 t1 : Z) (o : Net.fetch_outcome) :
  ChatInterface.send_disabled p st = false ->
  Net.await_json o = inr JS.VNull ->
  let out := ChatInterface.sendMessage p st t0 o t1 in
  ChatInterface.uncaught out = Some JS.TypeError
  /\ ChatInterface.final out =
       {| ChatInterface.messages :=
            ChatInterface.messages st ++ [Notions.userMessage_at st t0];
          ChatInterface.inputText := "";
          ChatInterface.isLoading := true;
          ChatInterface.isTyping := true |}
  /\ forall p' text t2 o' t3,
       let later := ChatInterface.setInputText text (ChatInterface.final out) in
       ChatInterface.input_disabled p' later = true
       /\ ChatInterface.send_disabled p' later = true
       /\ ChatInterface.sendMessage p' later t2 o' t3 =
            {| ChatInterface.final := later;
               ChatInterface.effects := [];
               ChatInterface.uncaught := None |}.
Proof.
  intros Hd Hnull out.
  assert (Hout : out =
            {| ChatInterface.final :=
                 {| ChatInterface.messages :=
                      ChatInterface.messages st ++ [Notions.userMessage_at st t0];
                    ChatInterface.inputText := "";
                    ChatInterface.isLoading := true;
                    ChatInterface.isTyping := true |};
               ChatInterface.effects :=
                 [Net.Fetch (ChatInterface.chat_request p (Notions.userMessage_at st t0))];
               ChatInterface.uncaught := Some JS.TypeError |}).
  { subst out. unfold ChatInterface.sendMessage.
    rewrite sendMessage_begin_sent by exact Hd.
    unfold ChatInterface.sendMessage_settle. rewrite Hnull. reflexivity. }
  rewrite Hout. cbn [ChatInterface.final ChatInterface.uncaught].
  split; [reflexivity |]. split; [reflexivity |].
  intros p' text t2 o' t3.
  assert (Hlocked : forall later,
             ChatInterface.isLoading later = true ->
             ChatInterface.send_disabled p' later = true).
  { intros later H. unfold ChatInterface.send_disabled.
    rewrite H, orb_true_r. reflexivity. }
  split.
  - unfold ChatInterface.input_disabled. apply orb_true_r.
  - split; [apply Hlocked; reflexivity |].
    apply sendMessage_blocked. apply Hlocked. reflexivity.
Qed.

Lemma null_reply_locks_chat_witness :
  ChatInterface.send_disabled Samples.online Samples.typed = false
  /\ Net.await_json (Samples.replied JS.VNull) = inr JS.VNull
  /\ ChatInterface.uncaught
       (ChatInterface.sendMessage Samples.online Samples.typed 1700000001000
          (Samples.replied JS.VNull) 1700000002000) = Some JS.TypeError.
Proof.
  split; [reflexivity |]. split; [reflexivity |].
  exact (proj1 (null_reply_locks_chat Samples.online Samples.typed
                  1700000001000 1700000002000 (Samples.replied JS.VNull)
                  eq_refl eq_refl)).
Defined.

(** ** What every run keeps *)

Section Kept.
Import JS Net Notions Client.

Lemma retryMessage_welcomed (index : nat) (st : ChatInterface.state) :
  welcomed st -> welcomed (ChatInterface.retryMessage index st).
Proof.
  intros (now & rest & Hm). unfold ChatInterface.retryMessage.
  destruct index as [| i]; [exists now, rest; exact Hm |].
  destruct (nth_error (ChatInterface.messages st) i) as [m |];
    [| exists now, rest; exact Hm].
  destruct (ChatInterface.type m); [| exists now, rest; exact Hm].
  destruct (ChatInterface.content m); try (exists now, rest; exact Hm).
  exists now, (firstn i rest). cbn. rewrite Hm. reflexivity.
Qed.

Lemma sendMessage_welcomed (p : ChatInterface.props) (st : ChatInterface.state)
    (t0 t1 : Z) (o : fetch_outcome) :
  welcomed st ->
  welcomed (ChatInterface.final (ChatInterface.sendMessage p st t0 o t1)).
Proof.
  intros (now & rest & Hm).
  destruct (sendMessage_extends p st t0 t1 o) as [added Hadded].
  exists now, (rest ++ added). rewrite Hadded, Hm. reflexivity.
Qed.

Lemma select_tab_chat (t : App.tab) (now : Z) (o : outcome_of Analytics.payload)
    (w : world) :
  chat (fst (select_tab t now o w)) = chat w
  \/ chat (fst (select_tab t now o w)) = ChatInterface.mount now.
Proof.
  unfold select_tab. destruct (tab_eqb t (App.activeTab (app w))); [left; reflexivity |].
  destruct t; cbn; auto.
  destruct (Analytics.fetchAnalytics o Analytics.initial); cbn; auto.
Qed.

Lemma mount_welcomed (now : Z) : welcomed (ChatInterface.mount now).
Proof. exists now, []. reflexivity. Qed.

Lemma step_welcomed (w : world) (e : event) :
  welcomed (chat w) -> welcomed (chat (fst (step w e))).
Proof.
  intros Hw. destruct e; unfold step.
  - destruct (App.checkSystemHealth o (app w)); exact Hw.
  - destruct (select_tab_chat t now o w) as [-> | ->];
      [exact Hw | apply mount_welcomed].
  - pose proof (select_tab_chat App.chat now Rejected w) as H.
    destruct (select_tab App.chat now Rejected w) as [w1 effs].
    cbn [fst] in *. world_fields.
    destruct H as [-> | ->]; [| clear Hw; pose proof (mount_welcomed now) as Hw];
      destruct Hw as (t & rest & Hm); exists t, rest; exact Hm.
  - destruct (tab_eqb _ _ && _); world_fields; [| exact Hw].
    destruct Hw as (t & rest & Hm); exists t, rest; exact Hm.
  - destruct (tab_eqb _ _); world_fields; [| exact Hw].
    apply sendMessage_welcomed. exact Hw.
  - destruct (tab_eqb _ _); [| exact Hw].
    destruct (nth_error _ button) as [a |]; [| exact Hw].
    destruct a; unfold chat_click; world_fields; try exact Hw.
    apply retryMessage_welcomed. exact Hw.
  - destruct (tab_eqb _ _); world_fields; [| exact Hw].
    destruct Hw as (t & rest & Hm). exists t, []. cbn. rewrite Hm. reflexivity.
  - destruct (tab_eqb _ _); exact Hw.
  - destruct (followUp w); exact Hw.
  - destruct (tab_eqb _ _); exact Hw.
  - destruct (tab_eqb _ _); exact Hw.
  - destruct (tab_eqb _ _); [| exact Hw].
    destruct (VoiceInterface.clearConversations _ _); exact Hw.
  - destruct (tab_eqb _ _ && _); [| exact Hw].
    destruct (Analytics.fetchAnalytics _ _); exact Hw.
  - destruct (tab_eqb _ _); [| exact Hw].
    destruct (Analytics.fetchAnalytics _ _); exact Hw.
Qed.

Lemma run_welcomed (es : list event) :
  forall w, welcomed (chat w) -> welcomed (chat (fst (run w es))).
Proof.
  induction es as [| e es IH]; intros w Hw; [exact Hw |].
  cbn [run]. pose proof (step_welcomed w e Hw) as H1.
  destruct (step w e) as [w1 effs1]. cbn [fst] in H1.
  specialize (IH w1 H1). destruct (run w1 es) as [w2 effs2]. exact IH.
Qed.

End Kept.

(** X4.  Along every run the conversation of the chat starts with the
    welcome message: no send, retry or clear removes it.  So Clear chat,
    which keeps the first message, always leaves exactly the welcome
    message and changes nothing else. *)
Theorem chat_keeps_welcome (now : Z) (random36 : string) (es : list Client.event) :
  let st := Client.chat (fst (Client.run (Client.start now random36) es)) in
  exists mounted rest,
    ChatInterface.messages st = ChatInterface.welcomeMessage mounted :: rest
    /\ ChatInterface.final (ChatInterface.clearChat st) =
         {| ChatInterface.messages := [ChatInterface.welcomeMessage mounted];
            ChatInterface.inputText := ChatInterface.inputText st;
            ChatInterface.isLoading := ChatInterface.isLoading st;
            ChatInterface.isTyping := ChatInterface.isTyping st |}.
Proof.
  intros st.
  destruct (run_welcomed es (Client.start now random36) (mount_welcomed now))
    as (mounted & rest & Hm).
  exists mounted, rest. split; [exact Hm |].
  unfold ChatInterface.clearChat, ChatInterface.setMessages.
  cbn [ChatInterface.final]. subst st. rewrite Hm. reflexivity.
Qed.

Section Status.
Import JS Net Notions Client.

Lemma select_tab_status (t : App.tab) (now : Z) (o : outcome_of Analytics.payload)
    (w : world) :
  App.systemStatus (app (fst (select_tab t now o w))) = App.systemStatus (app w).
Proof.
  unfold select_tab. destruct (tab_eqb t (App.activeTab (app w))); [reflexivity |].
  destruct t; cbn; try reflexivity.
  destruct (Analytics.fetchAnalytics o Analytics.initial); reflexivity.
Qed.

Lemma step_systemStatus (w : world) (e : event) :
  App.systemStatus (app (fst (step w e))) =
    match e with
    | HealthCheck o => if outcome_ready o then "healthy" else "error"
    | _ => App.systemStatus (app w)
    end.
Proof.
  destruct e; unfold step.
  - destruct (checkSystemHealth_spec o (app w)) as [H _].
    destruct (App.checkSystemHealth o (app w)) as [a effs].
    cbn [fst] in H. subst a. reflexivity.
  - apply select_tab_status.
  - pose proof (select_tab_status App.chat now Rejected w) as H.
    destruct (select_tab App.chat now Rejected w) as [w1 effs]. exact H.
  - split_step; reflexivity.
  - split_step; reflexivity.
  - unfold chat_click. split_step; reflexivity.
  - split_step; reflexivity.
  - split_step; reflexivity.
  - split_step; reflexivity.
  - split_step; reflexivity.
  - split_step; reflexivity.
  - split_step; reflexivity.
  - split_step; reflexivity.
  - split_step; reflexivity.
Qed.

Lemma run_status (es : list event) :
  forall w,
    status_agrees (app w) ->
    status_agrees (app (fst (run w es)))
    /\ (App.systemStatus (app (fst (run w es))) = "checking" ->
        never_checked es = true).
Proof.
  induction es as [| e es IH]; intros w Hw.
  - split; [exact Hw | reflexivity].
  - cbn [run].
    pose proof (step_isConnected w e) as Hc.
    pose proof (step_systemStatus w e) as Hs.
    destruct (step w e) as [w1 effs1]. cbn [fst] in Hc, Hs.
    assert (Hw1 : status_agrees (app w1)).
    { unfold status_agrees in *. rewrite Hc, Hs.
      destruct e; try exact Hw.
      destruct (outcome_ready o); [left | right]; auto. }
    destruct (IH w1 Hw1) as [Hagree Hchecking].
    destruct (run w1 es) as [w2 effs2] eqn:Hrun. cbn [fst] in *.
    split; [exact Hagree |].
    intros H. specialize (Hchecking H). cbn [never_checked forallb].
    fold (never_checked es). rewrite Hchecking.
    destruct e; try reflexivity.
    (* a health check never leaves "checking" behind *)
    exfalso.
    assert (Hlater : forall es' w',
               App.systemStatus (app w') <> "checking" ->
               never_checked es' = true ->
               App.systemStatus (app (fst (run w' es'))) <> "checking").
    { clear. induction es' as [| e' es' IH']; intros w' Hne Hnever; [exact Hne |].
      cbn [run]. pose proof (step_systemStatus w' e') as Hs'.
      destruct (step w' e') as [w1' effs1']. cbn [fst] in Hs'.
      cbn [never_checked forallb] in Hnever. fold (never_checked es') in Hnever.
      apply andb_prop in Hnever as [He' Hnever].
      specialize (IH' w1').
      destruct (run w1' es') as [w2' effs2']. cbn [fst] in *.
      apply IH'; [| exact Hnever].
      rewrite Hs'. destruct e'; try exact Hne. discriminate He'. }
    apply (Hlater es w1); [| exact Hchecking |].
    + rewrite Hs. destruct (outcome_ready o); discriminate.
    + rewrite Hrun. exact H.
Qed.

End Status.

(** X5.  Along every run the header and the connection flag agree: the
    status text is 'Online' exactly when [isConnected] is true, it is
    'Connecting...' only as long as no health check has come back, and
    otherwise it is 'Offline'. *)
Theorem status_text_follows_health (now : Z) (random36 : string)
    (es : list Client.event) :
  let a := Client.app (fst (Client.run (Client.start now random36) es)) in
  (App.status_text a = "Online" <-> App.isConnected a = true)
  /\ (App.status_text a = "Connecting..." -> Notions.never_checked es = true)
  /\ (App.isConnected a = false ->
      App.status_text a = "Connecting..." \/ App.status_text a = "Offline").
Proof.
  intros a.
  assert (Hstart : Notions.status_agrees (Client.app (Client.start now random36))).
  { right. cbn. auto. }
  destruct (run_status es _ Hstart) as [Hagree Hchecking].
  fold a in Hagree, Hchecking.
  unfold App.status_text.
  destruct Hagree as [[Hc Hs] | [Hc [Hs | Hs]]]; rewrite Hs, Hc; cbn.
  - repeat split; auto; discriminate.
  - split; [split; discriminate |]. split; [intros _; apply Hchecking; exact Hs |].
    auto.
  - split; [split; discriminate |]. split; [discriminate | auto].
Qed.

(** ** Voice turns *)

(** X6.  A voice turn never lets an exception escape and never leaves the
    spinner on.  With nothing recorded it only shows 'No audio recorded' and
    sends nothing.  When the fetch is rejected, the status is not ok, the
    body is not JSON or is [null], it sends the one request, shows the
    error toast and leaves the conversations and every other cell but
    [isProcessing] as they were. *)
Theorem voice_failure_keeps_conversations (p : VoiceInterface.props)
    (closure st : VoiceInterface.state) (audioChunks : list (list Byte.byte))
    (o : Net.fetch_outcome) (now : Z) (played : bool) :
  let out := VoiceInterface.processRecording p closure audioChunks o now played st in
  VoiceInterface.uncaught out = None
  /\ (audioChunks = [] ->
      out = {| VoiceInterface.final := st;
               VoiceInterface.effects := [Net.ToastError "No audio recorded"];
               VoiceInterface.uncaught := None |})
  /\ (audioChunks <> [] ->
      VoiceInterface.isProcessing (VoiceInterface.final out) = false
      /\ exists rest,
           VoiceInterface.effects out
           = Net.Fetch (VoiceInterface.voice_request p audioChunks) :: rest
           /\ Net.requests rest = [])
  /\ (audioChunks <> [] ->
      (exists e, Net.await_json o = inl e) \/ Net.await_json o = inr JS.VNull ->
      VoiceInterface.final out = VoiceInterface.setIsProcessing false st
      /\ VoiceInterface.effects out =
           [Net.Fetch (VoiceInterface.voice_request p audioChunks);
            Net.ConsoleError "Error processing recording:";
            Net.ToastError "Failed to process voice message"]).
Proof.
  intros out. subst out. unfold VoiceInterface.processRecording.
  destruct audioChunks as [| c cs].
  - split; [reflexivity |]. split; [reflexivity |].
    split; intros H; contradiction H; reflexivity.
  - split.
    { destruct (Net.await_json o) as [e | data]; [reflexivity |].
      destruct (VoiceInterface.processRecording_try closure data now played _)
        as [e | [st2 effs]]; reflexivity. }
    split; [discriminate |]. split.
    + intros _.
      destruct (Net.await_json o) as [e | data].
      { split; [reflexivity |]. eexists. split; reflexivity. }
      destruct (VoiceInterface.processRecording_try closure data now played _)
        as [e | [st2 effs]] eqn:Htry.
      { split; [reflexivity |]. eexists. split; reflexivity. }
      split; [reflexivity |]. exists effs. split; [reflexivity |].
      apply (requests_processRecording_try _ _ _ _ _ _ _ Htry).
    + intros _ [[e He] | Hnull].
      * rewrite He. split; reflexivity.
      * rewrite Hnull. split; reflexivity.
Qed.

Lemma voice_failure_keeps_conversations_witness :
  VoiceInterface.conversations
    (VoiceInterface.final
       (VoiceInterface.processRecording Samples.voice_props VoiceInterface.initial
          Samples.recording Samples.unavailable 1700000004000 true
          VoiceInterface.initial)) = [].
Proof.
  destruct (proj2 (proj2 (proj2
              (voice_failure_keeps_conversations Samples.voice_props
                 VoiceInterface.initial VoiceInterface.initial Samples.recording
                 Samples.unavailable 1700000004000 true)))
              ltac:(discriminate) (or_introl (ex_intro _ _ eq_refl)))
    as [Hfinal _].
  rewrite Hfinal. reflexivity.
Defined.

(** X7.  The reply to a voice turn is played exactly when the turn
    succeeded, the handler was not muted and the reply has a truthy
    [audio_url]; what is played is that url.  A muted handler never plays
    anything. *)
Theorem audio_played_iff (p : VoiceInterface.props)
    (closure st : VoiceInterface.state) (audioChunks : list (list Byte.byte))
    (o : Net.fetch_outcome) (now : Z) (played : bool) (u : JS.value) :
  In (Net.AudioPlay u)
     (VoiceInterface.effects
        (VoiceInterface.processRecording p closure audioChunks o now played st))
  <-> (audioChunks <> []
       /\ VoiceInterface.isMuted closure = false
       /\ JS.truthy u = true
       /\ exists data, Net.await_json o = inr data
                       /\ JS.get data "audio_url" = inr u).
Proof.
  unfold VoiceInterface.processRecording. split.
  - destruct audioChunks as [| c cs].
    { intros [H | []]; discriminate H. }
    destruct (Net.await_json o) as [e | data] eqn:Hdata.
    { intros [H | [H | [H | []]]]; discriminate H. }
    unfold VoiceInterface.processRecording_try.
    destruct (JS.get data "transcript") as [e | t];
      [intros [H | [H | [H | []]]]; discriminate H |].
    destruct (JS.get data "response") as [e | r];
      [intros [H | [H | [H | []]]]; discriminate H |].
    destruct (JS.get data "audio_url") as [e | a] eqn:Ha;
      [intros [H | [H | [H | []]]]; discriminate H |].
    destruct (JS.get data "intent") as [e | i];
      [intros [H | [H | [H | []]]]; discriminate H |].
    destruct (JS.get data "confidence") as [e | cf];
      [intros [H | [H | [H | []]]]; discriminate H |].
    destruct (VoiceInterface.isMuted closure) eqn:Hm; cbn [negb andb].
    { intros [H | [H | []]]; discriminate H. }
    destruct (JS.truthy a) eqn:Ht.
    + unfold VoiceInterface.playAudio.
      intros Hin.
      assert (Hu : u = a).
      { destruct (VoiceInterface.currentAudio closure), played; cbn in Hin;
          repeat match goal with
                 | H : _ \/ _ |- _ => destruct H
                 | H : False |- _ => contradiction
                 | H : _ = Net.AudioPlay _ |- _ =>
                     first [discriminate H | injection H as <-]
                 end; reflexivity. }
      subst u. split; [discriminate |]. split; [reflexivity |].
      split; [exact Ht |]. exists data. split; [reflexivity | exact Ha].
    + intros [H | [H | []]]; discriminate H.
  - intros (Hchunks & Hm & Ht & data & Hdata & Ha).
    destruct audioChunks as [| c cs]; [contradiction Hchunks; reflexivity |].
    rewrite Hdata. unfold VoiceInterface.processRecording_try.
    destruct (get_defined _ _ _ Ha "transcript") as [t Htr].
    destruct (get_defined _ _ _ Ha "response") as [r Hr].
    destruct (get_defined _ _ _ Ha "intent") as [i Hi].
    destruct (get_defined _ _ _ Ha "confidence") as [cf Hc].
    rewrite Htr, Hr, Ha, Hi, Hc, Hm, Ht. cbn [negb andb].
    unfold VoiceInterface.playAudio.
    destruct (VoiceInterface.currentAudio closure), played; cbn; auto.
Qed.

Lemma audio_played_iff_witness :
  In (Net.AudioPlay (JS.VStr "/audio/response_17.wav"))
     (VoiceInterface.effects
        (VoiceInterface.processRecording Samples.voice_props VoiceInterface.initial
           Samples.recording
           (Samples.replied
              (JS.VObj [("transcript", JS.VStr "When is the deadline?");
                        ("response", JS.VStr "Applications close on 1 March.");
                        ("audio_url", JS.VStr "/audio/response_17.wav")]))
           1700000004000 true VoiceInterface.initial)).
Proof.
  apply (proj2 (audio_played_iff _ _ _ _ _ _ _ _)).
  split; [discriminate |]. split; [reflexivity |]. split; [reflexivity |].
  eexists. split; reflexivity.
Defined.

(** ** The slices of the dashboard *)



(** X10.  What the dashboard shows after a query.  It never stays on the
    spinner.  A failed query (rejected fetch, status not ok, body not JSON
    or [null]) shows the error toast and keeps the data it had, so a
    dashboard that was loaded stays on the screen.  An ok reply without an
    [analytics] member shows no toast but drops the data, and the screen
    turns to the "Failed to load" panel; an ok reply with a rollup shows
    it. *)
Theorem query_outcome_on_screen (o : Net.outcome_of Analytics.payload)
    (st : Analytics.state) :
  let st' := fst (Analytics.fetchAnalytics o st) in
  let effs := snd (Analytics.fetchAnalytics o st) in
  Analytics.render st' <> Analytics.Loading
  /\ Analytics.timeRange st' = Analytics.timeRange st
  /\ ((exists e, Net.await_json o = inl e)
      \/ Net.await_json o = inr Analytics.NullPayload ->
      Analytics.analyticsData st' = Analytics.analyticsData st
      /\ (forall a, Analytics.analyticsData st = Some a ->
                    Analytics.render st' = Analytics.Dashboard a)
      /\ In (Net.ToastError "Failed to load analytics data") effs)
  /\ (Net.await_json o = inr (Analytics.Payload None) ->
      Analytics.render st' = Analytics.Failed
      /\ effs = [Net.Fetch (Analytics.analytics_request st)])
  /\ (forall a, Net.await_json o = inr (Analytics.Payload (Some a)) ->
                Analytics.render st' = Analytics.Dashboard a
                /\ effs = [Net.Fetch (Analytics.analytics_request st)]).
Proof.
  intros st' effs. subst st' effs. unfold Analytics.fetchAnalytics, Analytics.render.
  destruct (Net.await_json o) as [e | [| [a |]]]; cbn.
  - split; [destruct (Analytics.analyticsData st); discriminate |].
    split; [reflexivity |]. split.
    + intros _. split; [reflexivity |]. split; [intros a ->; reflexivity | auto].
    + split; [discriminate |]. intros a H; discriminate H.
  - split; [destruct (Analytics.analyticsData st); discriminate |].
    split; [reflexivity |]. split.
    + intros _. split; [reflexivity |]. split; [intros a ->; reflexivity | auto].
    + split; [discriminate |]. intros a H; discriminate H.
  - split; [discriminate |]. split; [reflexivity |]. split.
    + intros [[e H] | H]; discriminate H.
    + split; [intros H; discriminate H |].
      intros a' H. injection H as <-. split; reflexivity.
  - split; [discriminate |]. split; [reflexivity |]. split.
    + intros [[e H] | H]; discriminate H.
    + split; [intros _; split; reflexivity |]. intros a H; discriminate H.
Qed.

Lemma query_outcome_on_screen_witness :
  Analytics.render
    (fst (Analytics.fetchAnalytics Net.Rejected (Samples.loaded Samples.week)))
  = Analytics.Dashboard Samples.week.
Proof.
  destruct (proj1 (proj2 (proj2 (query_outcome_on_screen Net.Rejected
                                   (Samples.loaded Samples.week))))
              (or_introl (ex_intro _ _ eq_refl)))
    as (_ & H & _).
  exact (H Samples.week eq_refl).
Defined.

(** ** Names and times as text *)

Section Titles.
Import JS Analytics Notions.




End Titles.



Section Times.
Import JS VoiceInterface Notions.

Lemma Z_toString_inj (a b : Z) : Z_toString a = Z_toString b -> a = b.
Proof.
  unfold Z_toString. intros H.
  assert (Hcanon : forall z, NilZero.int_of_string (NilZero.string_of_int (Z.to_int z))
                             = Some (Z.to_int z)).
  { intros z. apply NilZero.isi; destruct z; cbn; try discriminate;
      intros Hnil; injection Hnil as Hnil;
      exact (DecimalPos.Unsigned.to_uint_nonnil _ Hnil). }
  apply DecimalZ.to_int_inj.
  pose proof (Hcanon a) as Ha. rewrite H, Hcanon in Ha. congruence.
Qed.

Lemma append_length (a b : string) :
  String.length (a +++ b) = (String.length a + String.length b)%nat.
Proof. induction a as [| c a IH]; cbn; [reflexivity | rewrite IH; reflexivity]. Qed.

(** Two texts that agree and end in tails of one length agree part by
    part. *)
Lemma append_inj_tail (a : string) :
  forall b x y,
    a +++ x = b +++ y -> String.length x = String.length y -> a = b /\ x = y.
Proof.
  induction a as [| c a IH]; intros b x y H Hlen.
  - destruct b as [| d b]; [split; [reflexivity | exact H] |].
    cbn in H. subst x. cbn in Hlen. rewrite append_length in Hlen. lia.
  - destruct b as [| d b].
    + cbn in H. subst y. cbn in Hlen. rewrite append_length in Hlen. lia.
    + cbn in H. injection H as -> H. destruct (IH b x y H Hlen) as [-> ->].
      split; reflexivity.
Qed.

(** The sixty seconds fields, by evaluation: two characters each, no two
    alike. *)
Lemma seconds_fields_table :
  forallb (fun i =>
             Nat.eqb (String.length (seconds_field i)) 2
             && forallb (fun j => implb (String.eqb (seconds_field i) (seconds_field j))
                                        (Nat.eqb i j))
                        (seq 0 60))
          (seq 0 60) = true.
Proof. vm_compute. reflexivity. Qed.

Lemma seconds_field_spec (r r' : Z) :
  0 <= r < 60 -> 0 <= r' < 60 ->
  String.length (padStart 2 "0" (Z_toString r)) = 2%nat
  /\ (padStart 2 "0" (Z_toString r) = padStart 2 "0" (Z_toString r') -> r = r').
Proof.
  intros Hr Hr'. pose proof seconds_fields_table as H.
  rewrite forallb_forall in H. specialize (H (Z.to_nat r)).
  assert (Hin : In (Z.to_nat r) (seq 0 60)) by (apply in_seq; lia).
  apply H in Hin. apply andb_prop in Hin as [Hlen Hdistinct].
  unfold seconds_field in Hlen, Hdistinct. rewrite Z2Nat.id in Hlen, Hdistinct by lia.
  split; [apply Nat.eqb_eq; exact Hlen |].
  intros Heq. rewrite forallb_forall in Hdistinct.
  specialize (Hdistinct (Z.to_nat r')).
  assert (Hin' : In (Z.to_nat r') (seq 0 60)) by (apply in_seq; lia).
  apply Hdistinct in Hin'. unfold seconds_field in Hin'.
  rewrite Z2Nat.id in Hin' by lia.
  rewrite Heq, String.eqb_refl in Hin'. cbn in Hin'.
  apply Nat.eqb_eq in Hin'. lia.
Qed.

End Times.

(** The minutes of a recording time: the quotient of the two numbers is
    rounded, and its floor is still the integer quotient. *)
Lemma floor_of_minutes (s : Z) :
  0 <= s < 2 ^ 53 ->
  JS.Math_floor (JS.div (JS.of_Z s) (JS.of_Z 60)) = JS.of_Z (s / 60).
Proof.
  intros Hs. destruct (Z.eq_dec s 0) as [-> | Hpos]; [reflexivity |].
  destruct (of_Z_exact s ltac:(lia)) as (m1 & k1 & -> & Hk1 & Hm1 & Hb1).
  change (JS.of_Z 60) with (S754_finite false 8444249301319680 (-47)).
  destruct (div_nearest m1 8444249301319680 (- k1) (-47))
    as (mq & a & -> & Ha & Hbq & Herr); try lia.
  assert (Ha1 : a = 0 \/ a = 1).
  { assert (Hcases : a = 0 \/ a = 1 \/ a = 2) by lia.
    destruct Hcases as [-> | [-> | ->]]; [left | right |]; try reflexivity.
    change (2 ^ 2) with 4 in Herr. lia. }
  set (ku := k1 + 6 - a).
  assert (Hku : 5 <= ku) by (unfold ku; lia).
  replace (- k1 - -47 - 53 + a) with (- ku) by (unfold ku; lia).
  unfold JS.Math_floor.
  replace (0 <=? - ku) with false by (symmetry; apply Z.leb_gt; lia).
  cbv zeta. rewrite Z.opp_involutive.
  pose proof (pow2_pos ku ltac:(lia)) as HX.
  pose proof (pow2_pos (a + 47) ltac:(lia)) as HG.
  assert (F1 : 2 ^ k1 * 2 ^ 53 = 2 ^ ku * 2 ^ (a + 47)).
  { rewrite <- !Z.pow_add_r by lia. f_equal. unfold ku. lia. }
  assert (F2 : 2 ^ a * 8444249301319680 = 60 * 2 ^ (a + 47)).
  { rewrite Z.pow_add_r by lia. change (2 ^ 47) with 140737488355328. ring. }
  assert (F3 : 32 <= 2 ^ ku).
  { change 32 with (2 ^ 5). apply Z.pow_le_mono_r; lia. }
  set (X := 2 ^ ku) in *. set (G := 2 ^ (a + 47)) in *.
  assert (R1 : -30 <= Z.pos mq * 60 - s * X <= 30).
  { rewrite Hm1, F2 in Herr.
    replace (s * 2 ^ k1 * 2 ^ 53) with (G * (s * X)) in Herr
      by (transitivity (s * (2 ^ k1 * 2 ^ 53)); [rewrite F1 |]; ring).
    assert (Hscaled : - (G * 30) <= G * (Z.pos mq * 60 - s * X) <= G * 30).
    { replace (G * (Z.pos mq * 60 - s * X))
        with (Z.pos mq * (60 * G) - G * (s * X)) by ring.
      lia. }
    exact (cancel_bounds G 30 _ HG Hscaled). }
  assert (Hq : Z.pos mq / X = s / 60).
  { pose proof (Z.div_mod s 60 ltac:(lia)) as Hdiv.
    pose proof (Z.mod_pos_bound s 60 ltac:(lia)) as Hmod.
    remember (s / 60) as k eqn:Hk. remember (s mod 60) as rho eqn:Hrho.
    rewrite Hdiv in R1.
    assert (H0 : 0 <= rho * X) by (apply Z.mul_nonneg_nonneg; lia).
    assert (H59 : rho * X <= 59 * X) by (apply Z.mul_le_mono_nonneg_r; lia).
    assert (H1 : rho = 0 \/ 1 * X <= rho * X).
    { destruct (Z.eq_dec rho 0); [left; assumption | right].
      apply Z.mul_le_mono_nonneg_r; lia. }
    symmetry. apply (Z.div_unique _ _ _ (Z.pos mq - X * k)); [left | ring].
    destruct H1 as [-> | H1]; lia. }
  rewrite Hq.
  destruct (Z.eqb_spec (s / 60) 0) as [-> |]; reflexivity.
Qed.

Lemma integer_toString_of_Z (z : Z) :
  0 <= z < 2 ^ 53 -> JS.integer_toString (JS.of_Z z) = Some (JS.Z_toString z).
Proof.
  intros Hz. destruct (Z.eq_dec z 0) as [-> | Hpos]; [reflexivity |].
  destruct (of_Z_exact z ltac:(lia)) as (m & k & -> & Hk & Hm & _).
  assert (Hinteger : JS.to_integer (S754_finite false m (- k)) = Some z).
  { unfold JS.to_integer. destruct (Z.leb_spec 0 (- k)) as [Hk0 | Hk0].
    - replace k with 0 in * by lia. rewrite Hm. cbn [Z.opp].
      rewrite Z.pow_0_r. f_equal. lia.
    - rewrite Z.opp_involutive, Hm, Z.mod_mul, Z.div_mul
        by (apply Z.pow_nonzero; lia).
      reflexivity. }
  unfold JS.integer_toString. rewrite Hinteger.
  replace (Z.abs z <? 2 ^ 53) with true by (symmetry; apply Z.ltb_lt; lia).
  reflexivity.
Qed.

Lemma formatTime_minutes (s : Z) :
  0 <= s < 2 ^ 53 ->
  VoiceInterface.formatTime s
  = Some (JS.Z_toString (s / 60) +++ ":"
          +++ VoiceInterface.padStart 2 "0" (JS.Z_toString (Z.rem s 60))).
Proof.
  intros Hs. unfold VoiceInterface.formatTime.
  replace (Z.abs s <? 2 ^ 53) with true by (symmetry; apply Z.ltb_lt; lia).
  rewrite floor_of_minutes by exact Hs.
  rewrite integer_toString_of_Z; [reflexivity |].
  split; [apply Z.div_pos; lia |].
  apply Z.le_lt_trans with s; [| lia].
  apply Z.div_le_upper_bound; lia.
Qed.

(** X12.  A recording time of [s] seconds, from 0 to below 2^53, is shown
    as the minutes [s / 60] in decimal, a colon, and a seconds field of
    exactly two characters; two different times are never shown alike. *)
Theorem formatTime_faithful (s s' : Z) :
  0 <= s < 2 ^ 53 -> 0 <= s' < 2 ^ 53 ->
  (exists field,
      VoiceInterface.formatTime s
      = Some (JS.Z_toString (s / 60) +++ ":" +++ field)
      /\ String.length field = 2%nat)
  /\ (VoiceInterface.formatTime s = VoiceInterface.formatTime s' -> s = s').
Proof.
  intros Hs Hs'. rewrite !formatTime_minutes by assumption.
  assert (Hr : 0 <= Z.rem s 60 < 60).
  { rewrite Z.rem_mod_nonneg by lia. apply Z.mod_pos_bound. lia. }
  assert (Hr' : 0 <= Z.rem s' 60 < 60).
  { rewrite Z.rem_mod_nonneg by lia. apply Z.mod_pos_bound. lia. }
  destruct (seconds_field_spec _ _ Hr Hr') as [Hlen Hinj].
  destruct (seconds_field_spec _ _ Hr' Hr) as [Hlen' _].
  split.
  - eexists. split; [reflexivity | exact Hlen].
  - intros H. injection H as H. apply append_inj_tail in H as [Hm Hf].
    + apply Z_toString_inj in Hm. injection Hf as Hf. apply Hinj in Hf.
      rewrite Z.rem_mod_nonneg in Hf by lia.
      rewrite (Z.rem_mod_nonneg s') in Hf by lia.
      rewrite (Z.div_mod s 60), (Z.div_mod s' 60) by lia. lia.
    + cbn [String.length]. rewrite Hlen, Hlen'. reflexivity.
Qed.

Lemma formatTime_faithful_witness :
  0 <= 65 < 2 ^ 53 /\ 0 <= 3600 < 2 ^ 53
  /\ VoiceInterface.formatTime 65 = Some "1:05"
  /\ VoiceInterface.formatTime 3600 = Some "60:00"
  /\ (VoiceInterface.formatTime 65 = VoiceInterface.formatTime 3600 -> 65 = 3600).
Proof.
  split; [lia |]. split; [lia |]. split; [reflexivity |]. split; [reflexivity |].
  exact (proj2 (formatTime_faithful 65 3600 ltac:(lia) ltac:(lia))).
Defined.

(** ** Session ids and tabs *)

Section SessionIds.
Import JS Notions.

Lemma uint_no_underscore (d : Decimal.uint) :
  occurrences "_" (NilEmpty.string_of_uint d) = 0%nat.
Proof. induction d; cbn; auto. Qed.

Lemma Z_toString_no_underscore (z : Z) : occurrences "_" (Z_toString z) = 0%nat.
Proof.
  unfold Z_toString, NilZero.string_of_int, NilZero.string_of_uint.
  destruct (Z.to_int z) as [d | d]; destruct d; cbn;
    try reflexivity; apply uint_no_underscore.
Qed.

(** Two texts cut at their first [c] agree part by part. *)
Lemma split_at_first (c : ascii) (a : string) :
  forall b x y,
    occurrences c a = 0%nat -> occurrences c b = 0%nat ->
    a +++ String c x = b +++ String c y -> a = b /\ x = y.
Proof.
  induction a as [| d a IH]; intros b x y Ha Hb H.
  - destruct b as [| e b]; cbn in H.
    + injection H as ->. split; reflexivity.
    + injection H as <- _. cbn in Hb. rewrite Ascii.eqb_refl in Hb. discriminate Hb.
  - destruct b as [| e b]; cbn in H.
    + injection H as -> _. cbn in Ha. rewrite Ascii.eqb_refl in Ha. discriminate Ha.
    + injection H as -> H. cbn in Ha, Hb.
      destruct (Ascii.eqb e c); [discriminate Ha |].
      destruct (IH b x y Ha Hb H) as [-> ->]. split; reflexivity.
Qed.

End SessionIds.

(** X13.  Two starts of the application get the same session id exactly
    when their clocks show the same millisecond and their random texts
    agree on the nine characters taken from them; a different millisecond
    always gives a different id. *)
Theorem session_ids_differ (now now' : Z) (random36 random36' : string) :
  App.sessionId (App.init now random36) = App.sessionId (App.init now' random36')
  <-> now = now' /\ substring 2 9 random36 = substring 2 9 random36'.
Proof.
  split.
  - cbn [App.init App.sessionId]. intros H.
    change ("session_" +++ JS.Z_toString now +++ "_" +++ substring 2 9 random36)
      with ("session_" +++ (JS.Z_toString now +++ String "_" (substring 2 9 random36)))
      in H.
    change ("session_" +++ JS.Z_toString now' +++ "_" +++ substring 2 9 random36')
      with ("session_" +++ (JS.Z_toString now' +++ String "_" (substring 2 9 random36')))
      in H.
    cbn [String.append] in H. injection H as H.
    apply split_at_first in H as [Hnow Hrandom];
      try apply Z_toString_no_underscore.
    split; [apply Z_toString_inj; exact Hnow | exact Hrandom].
  - intros [-> H]. cbn [App.init App.sessionId]. rewrite H. reflexivity.
Qed.

Lemma session_ids_differ_witness :
  App.sessionId (App.init 1700000000000 "0.k3j9x2m1qzz")
  <> App.sessionId (App.init 1700000000001 "0.k3j9x2m1qzz").
Proof.
  intros H.
  destruct (proj1 (session_ids_differ _ _ _ _) H) as [Hnow _].
  discriminate Hnow.
Defined.

(** X14.  Leaving the chat tab and coming back mounts the chat afresh: the
    conversation, the typed text and a pending spinner are gone and only a
    new welcome message is there, while the session id is the one from
    before. *)
Theorem chat_tab_remounts (w : Client.world) (t : App.tab) (n1 n2 : Z)
    (o1 o2 : Net.outcome_of Analytics.payload) :
  App.activeTab (Client.app w) = App.chat ->
  t <> App.chat ->
  let w' := fst (Client.run w [Client.SelectTab t n1 o1;
                               Client.SelectTab App.chat n2 o2]) in
  Client.chat w' = ChatInterface.mount n2
  /\ ChatInterface.messages (Client.chat w') = [ChatInterface.welcomeMessage n2]
  /\ App.activeTab (Client.app w') = App.chat
  /\ App.sessionId (Client.app w') = App.sessionId (Client.app w)
  /\ App.isConnected (Client.app w') = App.isConnected (Client.app w).
Proof.
  intros Hchat Ht w'. subst w'.
  cbn [Client.run Client.step]. unfold Client.select_tab.
  rewrite Hchat.
  destruct t; [contradiction Ht; reflexivity | |].
  - cbn. repeat split; reflexivity.
  - cbn [Client.tab_eqb].
    destruct (Analytics.fetchAnalytics o1 Analytics.initial) as [a effs].
    cbn. repeat split; reflexivity.
Qed.

Lemma chat_tab_remounts_witness :
  let w := fst (Client.run (Client.start 1700000000000 "0.k3j9x2m1qzz")
                  (firstn 3 Samples.visit)) in
  App.activeTab (Client.app w) = App.chat
  /\ App.voice <> App.chat
  /\ List.length (ChatInterface.messages (Client.chat w)) = 3%nat
  /\ ChatInterface.messages
       (Client.chat (fst (Client.run w [Client.SelectTab App.voice 1 Net.Rejected;
                                        Client.SelectTab App.chat 2 Net.Rejected])))
     = [ChatInterface.welcomeMessage 2].
Proof.
  split; [reflexivity |]. split; [discriminate |]. split; [reflexivity |].
  exact (proj1 (proj2 (chat_tab_remounts
                         (fst (Client.run (Client.start 1700000000000 "0.k3j9x2m1qzz")
                                 (firstn 3 Samples.visit)))
                         App.voice 1 2 Net.Rejected Net.Rejected eq_refl
                         ltac:(discriminate)))).
Defined.
